(** * GitHub Actions event log: webhook ingestion and the two query tools

    A shallow embedding of

      - [webhook_server.py]: [handle_webhook], the aiohttp handler that appends
        one event per POST to [github_events.json] and keeps the last 100;
      - [server.py]: the tools [get_recent_actions_events] and
        [get_workflow_status], which read that file.

    Python values are JSON documents ([json]); a raised exception is the
    [Raise] outcome of [result]; the events file is the only state and is
    threaded explicitly ([option string]: absent, or its text).  The [json]
    module, [pprint] and the part of [sorted] that depends on CPython's
    comparison order are taken from a [Runtime], with the exceptions they
    raise.  Writing to the standard output and writing the events file are
    taken to succeed. *)

From Stdlib Require Import List String Ascii ZArith Bool Lia Arith.
From Stdlib Require Import Permutation Sorted.
From Stdlib Require Import DecimalString DecimalPos DecimalZ.
Import ListNotations.
Local Open Scope string_scope.
Local Open Scope list_scope.

(** ** Python values *)

(** What [json.loads] builds: [None], [bool], [int], [str], [list] and
    [dict] (insertion ordered, keys unique).  A [str] is its UTF-8 bytes, so
    that the byte-wise order of [String.compare] is Python's code point order.
    Numbers are integers, as GitHub's identifiers are; documents with
    fractional numbers are outside this model. *)
#[local] Unset Elimination Schemes.
Inductive json : Type :=
| JNull
| JBool (b : bool)
| JInt (z : Z)
| JStr (s : string)
| JArr (items : list json)
| JObj (members : list (string * json)).
#[local] Set Elimination Schemes.

(** [type(v).__name__] *)
Definition type_name (v : json) : string :=
  match v with
  | JNull => "NoneType"
  | JBool _ => "bool"
  | JInt _ => "int"
  | JStr _ => "str"
  | JArr _ => "list"
  | JObj _ => "dict"
  end.

(** ** Exceptions *)

(** The exceptions the program meets, each with what [str(e)] is made of.
    [RecursionError] is raised by the [json] module and by [pprint] on data
    nested too deep, [ValueError] by [json.loads] on an integer past the
    interpreter's limit on digits, [UnicodeDecodeError] when bytes are not
    the text they should be, [OSError] ([IOError]) by the operating system. *)
Inductive exc : Type :=
| JSONDecodeError (msg : string)
| AttributeError (ty attr : string)
| TypeError (msg : string)
| KeyError (key : string)
| RecursionError (msg : string)
| ValueError (msg : string)
| UnicodeDecodeError (msg : string)
| OSError (msg : string).

(** [str(e)] *)
Definition exc_str (e : exc) : string :=
  match e with
  | JSONDecodeError msg => msg
  | AttributeError ty attr =>
      "'" ++ ty ++ "' object has no attribute '" ++ attr ++ "'"
  | TypeError msg => msg
  | KeyError key => "'" ++ key ++ "'"
  | RecursionError msg => msg
  | ValueError msg => msg
  | UnicodeDecodeError msg => msg
  | OSError msg => msg
  end.

Inductive result (A : Type) : Type :=
| Ok (a : A)
| Raise (e : exc).
Arguments Ok {A} a.
Arguments Raise {A} e.

Definition bind {A B} (r : result A) (k : A -> result B) : result B :=
  match r with
  | Ok a => k a
  | Raise e => Raise e
  end.

Notation "x <- c ;; k" := (bind c (fun x => k))
  (at level 61, c at next level, right associativity).

(** Left-to-right evaluation of a comprehension body over a list. *)
Fixpoint mapM {A B} (f : A -> result B) (l : list A) : result (list B) :=
  match l with
  | [] => Ok []
  | x :: l' => y <- f x ;; ys <- mapM f l' ;; Ok (y :: ys)
  end.

Fixpoint filterM {A} (f : A -> result bool) (l : list A) : result (list A) :=
  match l with
  | [] => Ok []
  | x :: l' =>
      b <- f x ;; ys <- filterM f l' ;; Ok (if b then x :: ys else ys)
  end.

(** ** Operations of the language on these values *)

Module Py.

(** Lookup in a [dict]. *)
Fixpoint lookup (k : string) (m : list (string * json)) : option json :=
  match m with
  | [] => None
  | (k', v) :: m' => if String.eqb k k' then Some v else lookup k m'
  end.

(** [v.get(k, default)]: only a [dict] has the method. *)
Definition get (v : json) (k : string) (default : json) : result json :=
  match v with
  | JObj m => Ok (match lookup k m with Some x => x | None => default end)
  | _ => Raise (AttributeError (type_name v) "get")
  end.

(** [v[k]] for a string [k]; the program only uses it on a [dict]. *)
Definition item (v : json) (k : string) : result json :=
  match v with
  | JObj m =>
      match lookup k m with Some x => Ok x | None => Raise (KeyError k) end
  | JStr _ => Raise (TypeError "string indices must be integers, not 'str'")
  | JArr _ =>
      Raise (TypeError "list indices must be integers or slices, not str")
  | _ => Raise (TypeError ("'" ++ type_name v
                           ++ "' object is not subscriptable"))
  end.

(** [k in v] for a string [k]; only used on a [dict]. *)
Definition contains (v : json) (k : string) : bool :=
  match v with
  | JObj m => match lookup k m with Some _ => true | None => false end
  | _ => false
  end.

(** [bool(v)] *)
Definition truthy (v : json) : bool :=
  match v with
  | JNull => false
  | JBool b => b
  | JInt z => negb (Z.eqb z 0)
  | JStr s => negb (String.eqb s "")
  | JArr l => match l with [] => false | _ => true end
  | JObj m => match m with [] => false | _ => true end
  end.

(** The number a [bool] or [int] stands for. *)
Definition number (v : json) : option Z :=
  match v with
  | JBool b => Some (if b then 1 else 0)%Z
  | JInt z => Some z
  | _ => None
  end.

(** [a == b]: numbers by value ([True == 1]), lists by items, dicts by
    members in any order, everything else by type and content. *)
Fixpoint eq (a b : json) {struct a} : bool :=
  match a, b with
  | JNull, JNull => true
  | JBool x, (JBool _ | JInt _) =>
      match number b with
      | Some z => Z.eqb (if x then 1 else 0) z
      | None => false
      end
  | JInt x, (JBool _ | JInt _) =>
      match number b with Some z => Z.eqb x z | None => false end
  | JStr x, JStr y => String.eqb x y
  | JArr la, JArr lb =>
      (fix items (la lb : list json) : bool :=
         match la, lb with
         | [], [] => true
         | x :: la', y :: lb' => eq x y && items la' lb'
         | _, _ => false
         end) la lb
  | JObj ma, JObj mb =>
      Nat.eqb (List.length ma) (List.length mb)
      && (fix members (ma : list (string * json)) : bool :=
            match ma with
            | [] => true
            | (k, x) :: ma' =>
                match lookup k mb with
                | Some y => eq x y
                | None => false
                end && members ma'
            end) ma
  | _, _ => false
  end.

Definition unsupported (op : string) (a b : json) : exc :=
  TypeError ("'" ++ op ++ "' not supported between instances of '"
             ++ type_name a ++ "' and '" ++ type_name b ++ "'").

(** [a > b]: numbers by value, strings by code point, lists by their first
    differing item; [TypeError] for anything else. *)
Fixpoint gt (a b : json) {struct a} : result bool :=
  match a, b with
  | (JBool _ | JInt _), (JBool _ | JInt _) =>
      match number a, number b with
      | Some x, Some y => Ok (Z.ltb y x)
      | _, _ => Raise (unsupported ">" a b)
      end
  | JStr x, JStr y => Ok (String.ltb y x)
  | JArr la, JArr lb =>
      (fix items (la lb : list json) : result bool :=
         match la, lb with
         | x :: la', y :: lb' => if eq x y then items la' lb' else gt x y
         | [], _ => Ok false
         | _ :: _, [] => Ok true
         end) la lb
  | _, _ => Raise (unsupported ">" a b)
  end.

(** A byte that continues a UTF-8 sequence: 10xxxxxx. *)
Definition continuation (c : ascii) : bool :=
  let n := nat_of_ascii c in (128 <=? n)%nat && (n <? 192)%nat.

(** The characters of a [str], each a [str] of its own. *)
Fixpoint chars (s : string) : list string :=
  match s with
  | EmptyString => []
  | String c s' =>
      match chars s' with
      | [] => [String c EmptyString]
      | (String d _ as nxt) :: rest =>
          if continuation d then String c nxt :: rest
          else String c EmptyString :: nxt :: rest
      | EmptyString :: rest => String c EmptyString :: rest
      end
  end.

(** [for x in v]: the items of a list, the keys of a dict, the characters
    of a string. *)
Definition iter (v : json) : result (list json) :=
  match v with
  | JArr l => Ok l
  | JObj m => Ok (map (fun kv => JStr (fst kv)) m)
  | JStr s => Ok (map JStr (chars s))
  | _ => Raise (TypeError ("'" ++ type_name v ++ "' object is not iterable"))
  end.

(** [l[:k]] on a list. *)
Definition slice_to {A} (k : Z) (l : list A) : list A :=
  if (0 <=? k)%Z then firstn (Z.to_nat k) l
  else firstn (List.length l - Z.to_nat (- k)) l.

(** [l[-k:]] on a list, for a literal [k > 0]. *)
Definition slice_last {A} (k : nat) (l : list A) : list A :=
  skipn (List.length l - k) l.

(** [str(n)] for an [int]. *)
Definition str_int (z : Z) : string := NilZero.string_of_int (Z.to_int z).

End Py.

(** ** Sorting by a string key, largest first *)

(** Insertion below every strictly larger key: equal keys keep the order
    they had, as [reverse=True] does. *)
Fixpoint insert_desc {A} (key : A -> string) (x : A) (l : list A) : list A :=
  match l with
  | [] => [x]
  | y :: l' =>
      if String.ltb (key x) (key y) then y :: insert_desc key x l'
      else x :: l
  end.

Definition sort_desc {A} (key : A -> string) (l : list A) : list A :=
  fold_right (insert_desc key) [] l.

(** ** The runtime: the [json] module and [list.sort] *)

Fixpoint distinct (l : list string) : bool :=
  match l with
  | [] => true
  | k :: l' => negb (existsb (String.eqb k) l') && distinct l'
  end.

(** A document as Python holds it: no key twice in a dict. *)
Fixpoint wf (v : json) : bool :=
  match v with
  | JArr l => forallb wf l
  | JObj m =>
      distinct (map fst m)
      && forallb (fun kv => let '(_, x) := kv in wf x) m
  | _ => true
  end.

(** What the embedding takes from the interpreter and its libraries.

    - [json_parse] is [json.loads], and [json.load] on a file that holds
      the text: [inl e] stands for raising [e].  That is [JSONDecodeError]
      on text that is not JSON, [RecursionError] on text nested too deep,
      [ValueError] on an integer with too many digits and, for a file,
      [UnicodeDecodeError] or [OSError] when it cannot be read as text.
    - [json_dumps indent] is [json.dumps(v, indent=...)], also what
      [json.dump] writes and what [web.json_response] sends; it is taken to
      return on the documents the program hands it.
    - [pprint v] is [pprint(v)]: it returns, or raises [RecursionError] when
      [v] is nested deeper than the interpreter's stack allows.
    - [sorted_other keys items] is the outcome of [sorted] on keys that are
      not all [str]: which comparison CPython's sort tries first, and so
      whether and with which message it raises, is left to the runtime.

    The two laws are what the program relies on: [json.loads] builds dicts,
    so no key twice, and reads back what [json.dumps] wrote (for integers
    within the interpreter's limit on digits and documents within its limit
    on nesting). *)
Class Runtime : Type := {
  json_parse : string -> exc + json;
  json_dumps : option nat -> json -> string;
  pprint : json -> result unit;
  sorted_other : list json -> list json -> result (list json);
  json_parse_wf : forall s v, json_parse s = inr v -> wf v = true;
  json_parse_dumps :
    forall indent v, wf v = true -> json_parse (json_dumps indent v) = inr v
}.

Section Program.

Context {R : Runtime}.

Definition json_loads (s : string) : result json :=
  match json_parse s with
  | inl e => Raise e
  | inr v => Ok v
  end.

(** *** [sorted(items, key=..., reverse=True)] *)

Fixpoint str_keys (keys : list json) : option (list string) :=
  match keys with
  | [] => Some []
  | JStr s :: keys' => option_map (cons s) (str_keys keys')
  | _ :: _ => None
  end.

Definition sorted_reverse (keys items : list json) : result (list json) :=
  match str_keys keys with
  | Some ks => Ok (map snd (sort_desc fst (combine ks items)))
  | None => sorted_other keys items
  end.

(** *** The events file *)

(** [EVENTS_FILE]: [None] when [EVENTS_FILE.exists()] is false, else the
    text of the file. *)
Definition events_file := option string.

(** ** [webhook_server.py] *)

(** [req_text] is the outcome of [await request.text()]: the body as text,
    or [inl msg] when decoding it raises [UnicodeDecodeError] with
    [str(e) = msg]. *)
Record request := {
  req_text : string + string;
  req_headers : list (string * string)     (* request.headers *)
}.

Record response := {
  status : Z;
  body : string
}.

(** [web.json_response(data, status=...)] *)
Definition json_response (data : json) (st : Z) : response :=
  {| status := st; body := json_dumps None data |}.

Definition lower (c : ascii) : ascii :=
  let n := nat_of_ascii c in
  if (65 <=? n)%nat && (n <=? 90)%nat then ascii_of_nat (n + 32) else c.

Fixpoint lowercase (s : string) : string :=
  match s with
  | EmptyString => EmptyString
  | String c s' => String (lower c) (lowercase s')
  end.

(** [headers.get(name, default)]: header names match whatever their case. *)
Fixpoint headers_get (hs : list (string * string)) (name default : string)
  : string :=
  match hs with
  | [] => default
  | (k, v) :: hs' =>
      if String.eqb (lowercase k) (lowercase name) then v
      else headers_get hs' name default
  end.

(** [events.append(event)] *)
Definition list_append (events event : json) : result (list json) :=
  match events with
  | JArr l => Ok (l ++ [event])
  | _ => Raise (AttributeError (type_name events) "append")
  end.

(** Lines 38-42: the stored events, [[]] while there is no file. *)
Definition load_existing_events (file : events_file) : result json :=
  match file with
  | Some text => json_loads text
  | None => Ok (JArr [])
  end.

(** The event record of lines 31-35. *)
Definition event_record (timestamp event_type : string) (payload : json)
  : json :=
  JObj [("timestamp", JStr timestamp);
        ("event_type", JStr event_type);
        ("payload", payload)].

(** [handle_webhook(request)], with [datetime.now().isoformat()] as [now].
    Returns the response and the events file afterwards. *)
Definition handle_webhook (now : string) (request : request)
    (file : events_file) : response * events_file :=
  match req_text request with
  | inl msg =>
      (* [request.text()] raised: the last [except] clause *)
      (json_response (JObj [("error", JStr (exc_str (UnicodeDecodeError msg)))])
         400,
       file)
  | inr body =>
      let attempt :=
        data <- json_loads body ;;
        printed <- pprint data ;;
        let event :=
          event_record now
            (headers_get (req_headers request) "X-GitHub-Event" "unknown")
            data in
        printed <- pprint event ;;
        events <- load_existing_events file ;;
        events <- list_append events event ;;
        let events := Py.slice_last 100 events in
        Ok (json_dumps (Some 2%nat) (JArr events)) in
      match attempt with
      | Ok written =>
          (json_response (JObj [("status", JStr "received")]) 200,
           Some written)
      | Raise (JSONDecodeError _ as e) =>
          (json_response
             (JObj [("error", JStr ("JSON Decode Error: " ++ exc_str e));
                    ("body_received", JStr body)]) 400,
           file)
      | Raise e =>
          (json_response (JObj [("error", JStr (exc_str e))]) 400, file)
      end
  end.

(** ** [server.py] *)

(** [get_recent_actions_events(limit)] *)
Definition get_recent_actions_events (file : events_file) (limit : Z)
  : string :=
  match file with
  | None => json_dumps None (JArr [])
  | Some text =>
      let attempt :=
        events <- json_loads text ;;
        items <- Py.iter events ;;
        keys <- mapM (fun x => Py.get x "timestamp" (JStr "")) items ;;
        sorted <- sorted_reverse keys items ;;
        let recent_events := Py.slice_to limit sorted in
        Ok (json_dumps (Some 2%nat) (JArr recent_events)) in
      match attempt with
      | Ok out => out
      | Raise e =>
          json_dumps None
            (JObj [("error",
                    JStr ("Failed to read or parse events file: "
                          ++ exc_str e))])
      end
  end.

(** *** [latest_statuses], a dict keyed by workflow name *)

(** [hash(v)] fails on a list and on a dict. *)
Definition hashable (v : json) : bool :=
  match v with
  | JArr _ | JObj _ => false
  | _ => true
  end.

Definition dict := list (json * json).

(** [d[k]] when [k in d] *)
Fixpoint dict_find (k : json) (d : dict) : option json :=
  match d with
  | [] => None
  | (k', v) :: d' => if Py.eq k k' then Some v else dict_find k d'
  end.

(** [d[k] = v]: a key already there keeps its place, a new one goes last. *)
Fixpoint dict_set (k v : json) (d : dict) : dict :=
  match d with
  | [] => [(k, v)]
  | (k', v') :: d' =>
      if Py.eq k k' then (k', v) :: d' else (k', v') :: dict_set k v d'
  end.

(** The key [json.dumps] writes for a dict key. *)
Definition key_str (k : json) : string :=
  match k with
  | JStr s => s
  | JBool true => "true"
  | JBool false => "false"
  | JInt z => Py.str_int z
  | _ => "null"
  end.

Definition dict_json (d : dict) : json :=
  JObj (map (fun kv => (key_str (fst kv), snd kv)) d).

(** [run.get("workflow_run", {}).get(field)] *)
Definition workflow_run_field (run : json) (field : string) : result json :=
  workflow_run <- Py.get run "workflow_run" (JObj []) ;;
  Py.get workflow_run field JNull.

(** [run.get("workflow", {}).get("name")] *)
Definition workflow_name_of (run : json) : result json :=
  workflow <- Py.get run "workflow" (JObj []) ;;
  Py.get workflow "name" JNull.

(** One turn of the loop of lines 240-255. *)
Definition record_run (latest_statuses : dict) (run : json) : result dict :=
  name <- workflow_name_of run ;;
  if negb (Py.truthy name) then Ok latest_statuses
  else
    run_id <- workflow_run_field run "id" ;;
    timestamp <- workflow_run_field run "updated_at" ;;
    newer <-
      (if hashable name then
         match dict_find name latest_statuses with
         | None => Ok true
         | Some kept => kept_id <- Py.item kept "id" ;; Py.gt run_id kept_id
         end
       else Raise (TypeError ("unhashable type: '" ++ type_name name ++ "'"))) ;;
    if newer then
      st <- workflow_run_field run "status" ;;
      conclusion <- workflow_run_field run "conclusion" ;;
      Ok (dict_set name
            (JObj [("id", run_id); ("status", st);
                   ("conclusion", conclusion); ("timestamp", timestamp)])
            latest_statuses)
    else Ok latest_statuses.

Fixpoint record_runs (latest_statuses : dict) (runs : list json)
  : result dict :=
  match runs with
  | [] => Ok latest_statuses
  | run :: runs' =>
      latest_statuses <- record_run latest_statuses run ;;
      record_runs latest_statuses runs'
  end.

(** The comprehension of lines 220-224: the payloads of the events that
    pass the test, in log order. *)
Fixpoint workflow_run_payloads (events : list json) : result (list json) :=
  match events with
  | [] => Ok []
  | event :: events' =>
      event_type <- Py.get event "event_type" JNull ;;
      chosen <-
        (if Py.eq event_type (JStr "workflow_run")
            && Py.contains event "payload"
         then payload <- Py.item event "payload" ;; Ok [payload]
         else Ok []) ;;
      rest <- workflow_run_payloads events' ;;
      Ok (chosen ++ rest)
  end.

(** [if x:] for an optional string: false for [None] and for [""]. *)
Definition given (x : option string) : bool :=
  match x with
  | Some s => negb (String.eqb s "")
  | None => false
  end.

(** Lines 226-257 of [get_workflow_status]: what is reported for the payloads
    that passed the test. *)
Definition report_workflow_runs (workflow_runs : list json)
    (workflow_name : option string) : result string :=
  match workflow_runs with
  | [] =>
      Ok (json_dumps None
            (JObj [("status", JStr "No workflow run events found.")]))
  | _ :: _ =>
      let wanted := match workflow_name with Some s => s | None => "" end in
      workflow_runs <-
        (if given workflow_name then
           filterM (fun run =>
                      name <- workflow_name_of run ;;
                      Ok (Py.eq name (JStr wanted)))
                   workflow_runs
         else Ok workflow_runs) ;;
      match given workflow_name, workflow_runs with
      | true, [] =>
          Ok (json_dumps None
                (JObj [("status",
                        JStr ("No workflow runs found for '"
                              ++ wanted ++ "'."))]))
      | _, _ =>
          latest_statuses <- record_runs [] workflow_runs ;;
          Ok (json_dumps (Some 2%nat) (dict_json latest_statuses))
      end
  end.

(** [get_workflow_status(workflow_name)]: the returned text, or the
    exception that leaves the function. *)
Definition get_workflow_status (file : events_file)
    (workflow_name : option string) : result string :=
  match file with
  | None =>
      Ok (json_dumps None
            (JObj [("status",
                    JStr "No events file found. No workflows to report.")]))
  | Some text =>
      match json_loads text with
      (* except (json.JSONDecodeError, IOError) *)
      | Raise (JSONDecodeError _ as e) | Raise (OSError _ as e) =>
          Ok (json_dumps None
                (JObj [("error",
                        JStr ("Failed to read or parse events file: "
                              ++ exc_str e))]))
      | Raise e => Raise e
      | Ok events =>
          events <- Py.iter events ;;
          workflow_runs <- workflow_run_payloads events ;;
          report_workflow_runs workflow_runs workflow_name
      end
  end.

End Program.

(** ** The data model: events and the log *)

Record Event := {
  timestamp : string;
  event_type : string;
  payload : json
}.

Section Log.

Context {R : Runtime}.

Definition event_json (e : Event) : json :=
  event_record (timestamp e) (event_type e) (payload e).

(** The log as the file holds it: an array of event records, oldest first. *)
Definition log_json (log : list Event) : json := JArr (map event_json log).

(** The event a POST brings to the store, when the handler gets that far:
    the body is text that [json.loads] reads, and the two calls of [pprint],
    on the parsed body and on the event, return. *)
Definition received (now : string) (rq : request) : option Event :=
  match req_text rq with
  | inr body =>
      match json_parse body with
      | inr data =>
          let e := {| timestamp := now;
                      event_type := headers_get (req_headers rq)
                                      "X-GitHub-Event" "unknown";
                      payload := data |} in
          match pprint data, pprint (event_json e) with
          | Ok _, Ok _ => Some e
          | _, _ => None
          end
      | inl _ => None
      end
  | inl _ => None
  end.

(** POSTs handled one after the other, each with its arrival time. *)
Fixpoint deliver (posts : list (string * request)) (file : events_file)
  : list response * events_file :=
  match posts with
  | [] => ([], file)
  | (now, rq) :: posts' =>
      let (resp, file') := handle_webhook now rq file in
      let (resps, file'') := deliver posts' file' in
      (resp :: resps, file'')
  end.

Definition acknowledged : response :=
  json_response (JObj [("status", JStr "received")]) 200.

Definition decode_failure (msg body : string) : response :=
  json_response
    (JObj [("error", JStr ("JSON Decode Error: " ++ msg));
           ("body_received", JStr body)]) 400.

Definition read_failure (msg : string) : string :=
  json_dumps None
    (JObj [("error", JStr ("Failed to read or parse events file: " ++ msg))]).

(** The payloads [get_workflow_status] looks at: those of the events
    classified [workflow_run], in log order. *)
Definition workflow_runs (log : list Event) : list json :=
  map payload
    (filter (fun e => String.eqb (event_type e) "workflow_run") log).

(** How the loop of [get_workflow_status] reads a payload that has the fields
    it expects: no workflow name to report under, or a name (a non-empty
    string) and an integer run identifier. *)
Inductive run_kind : Type :=
| Unnamed
| Named (name : string) (id : Z).

Definition classify (run : json) : option run_kind :=
  match workflow_name_of run with
  | Ok name =>
      if Py.truthy name then
        match name, workflow_run_field run "id" with
        | JStr s, Ok (JInt id) => Some (Named s id)
        | _, _ => None
        end
      else Some Unnamed
  | Raise _ => None
  end.


Definition field_or_null (run : json) (field : string) : json :=
  match workflow_run_field run field with
  | Ok v => v
  | Raise _ => JNull
  end.

(** The snapshot of lines 250-255 for a run with identifier [id]. *)
Definition snapshot (id : Z) (run : json) : json :=
  JObj [("id", JInt id);
        ("status", field_or_null run "status");
        ("conclusion", field_or_null run "conclusion");
        ("timestamp", field_or_null run "updated_at")].

(** [latest_statuses] over such payloads: per name, the identifier and the
    payload that are kept. *)
Definition kept := list (string * (Z * json)).





Definition kept_members (k : kept) : list (string * json) :=
  map (fun e => (fst e, snapshot (fst (snd e)) (snd (snd e)))) k.



(** The test of line 233. *)
Definition named_as (wanted : string) (run : json) : bool :=
  match workflow_name_of run with
  | Ok name => Py.eq name (JStr wanted)
  | Raise _ => false
  end.

(** A payload the loop of [get_workflow_status] passes over at line 242:
    its nested workflow name can be read and is absent or falsy. *)
Definition unnamed (run : json) : bool :=
  match workflow_name_of run with
  | Ok name => negb (Py.truthy name)
  | Raise _ => false
  end.

(** The keys of a dict after [name] is assigned to: a key equal to it keeps
    its place, a new one goes last. *)
Definition add_name (keys : list json) (name : json) : list json :=
  if existsb (Py.eq name) keys then keys else keys ++ [name].

(** Each name once, in the order of first appearance. *)
Definition once (names : list json) : list json :=
  fold_left add_name names [].

Definition workflow_run_event (now : string) (payload : json) : Event :=
  {| timestamp := now; event_type := "workflow_run"; payload := payload |}.

(** Two workflow_run events for one workflow, the second without a run
    identifier. *)
Definition missing_id_log : list Event :=
  [ workflow_run_event "2024-05-01T10:00:00"
      (JObj [("workflow", JObj [("name", JStr "deploy")]);
             ("workflow_run",
              JObj [("id", JInt 7); ("status", JStr "completed");
                    ("conclusion", JStr "success");
                    ("updated_at", JStr "2024-05-01T09:59:58Z")])]);
    workflow_run_event "2024-05-01T10:05:00"
      (JObj [("workflow", JObj [("name", JStr "deploy")]);
             ("workflow_run", JObj [("status", JStr "queued")])]) ].

End Log.

(** ** [server.py]: the tools of the first module *)

(** How a tool of this part ends: it returns, or an exception leaves it.
    [FileNotFoundError] is what [read_text] raises on a missing file,
    [LookupError] the [IndexError] or [KeyError] of [templates[0]], with the
    name of the exception and [str(e)]. *)
Inductive outcome (A : Type) : Type :=
| Returned (a : A)
| FileNotFoundError (filename : string)
| LookupError (exception msg : string)
| Raised (e : exc).
Arguments Returned {A} a.
Arguments FileNotFoundError {A} filename.
Arguments LookupError {A} exception msg.
Arguments Raised {A} e.

Definition and_then {A B} (o : outcome A) (k : A -> outcome B) : outcome B :=
  match o with
  | Returned a => k a
  | FileNotFoundError f => FileNotFoundError f
  | LookupError exception msg => LookupError exception msg
  | Raised e => Raised e
  end.

Notation "x <~ c ;; k" := (and_then c (fun x => k))
  (at level 61, c at next level, right associativity).

Definition of_result {A} (r : result A) : outcome A :=
  match r with
  | Ok a => Returned a
  | Raise e => Raised e
  end.

Section Tools.

Context {R : Runtime}.

Definition newline : ascii := "010"%char.

(** [s.split('\n')] *)
Fixpoint split_lines (s : string) : list string :=
  match s with
  | EmptyString => [EmptyString]
  | String c s' =>
      if Ascii.eqb c newline then EmptyString :: split_lines s'
      else
        match split_lines s' with
        | line :: lines => String c line :: lines
        | [] => [String c EmptyString]
        end
  end.

(** ['\n'.join(lines)] *)
Fixpoint join_lines (lines : list string) : string :=
  match lines with
  | [] => EmptyString
  | line :: lines' =>
      match lines' with
      | [] => line
      | _ :: _ => (line ++ String newline (join_lines lines'))%string
      end
  end.

(** What [subprocess.run(args, capture_output=True, text=True)] returns. *)
Record completed := {
  returncode : Z;
  stdout : string;
  stderr : string
}.

(** [subprocess.run(args, capture_output=True, text=True)] for each command
    line: the completed process, or the exception raised when the program
    cannot be started ([OSError], as when there is no [git]) or when what it
    printed is not text ([UnicodeDecodeError]). *)
Definition subprocess := list string -> result completed.

(** A repository in which every command starts and prints text, and what
    [subprocess.run] makes of it. *)
Definition shell := list string -> completed.

Definition started (run : shell) : subprocess := fun args => Ok (run args).

(** Lines 98-107: the diff that is shown, and whether it was cut. *)
Definition shown_diff (diff_stdout : string) (max_diff_lines : Z)
  : string * bool :=
  let diff_lines := split_lines diff_stdout in
  if (max_diff_lines <? Z.of_nat (List.length diff_lines))%Z then
    ((join_lines (Py.slice_to max_diff_lines diff_lines)
      ++ String newline (String newline
           ("... Output truncated. Showing " ++ Py.str_int max_diff_lines
            ++ " of " ++ Py.str_int (Z.of_nat (List.length diff_lines))
            ++ " lines ..."))
      ++ String newline "... Use max_diff_lines parameter to see more ...")%string,
     true)
  else (diff_stdout, false).

(** [analyze_file_changes(base_branch, include_diff, max_diff_lines)] *)
Definition analyze_file_changes (run : subprocess) (base_branch : string)
    (include_diff : bool) (max_diff_lines : Z) : string :=
  let attempt :=
    files_result <-
      run ["git"; "diff"; "--name-status"; (base_branch ++ "...HEAD")%string] ;;
    if negb (returncode files_result =? 0)%Z then
      (* check=True raises CalledProcessError: the first except clause *)
      Ok (json_dumps None
            (JObj [("error", JStr ("Git error: " ++ stderr files_result))]))
    else
      stat_result <-
        run ["git"; "diff"; "--stat"; (base_branch ++ "...HEAD")%string] ;;
      diff_stdout <-
        (if include_diff then
           diff_result <-
             run ["git"; "diff"; (base_branch ++ "...HEAD")%string] ;;
           Ok (stdout diff_result)
         else Ok EmptyString) ;;
      let (diff_content, truncated) :=
        if include_diff then shown_diff diff_stdout max_diff_lines
        else (EmptyString, false) in
      commits_result <-
        run ["git"; "log"; "--oneline"; (base_branch ++ "..HEAD")%string] ;;
      Ok (json_dumps (Some 2%nat)
            (JObj [("base_branch", JStr base_branch);
                   ("files_changed", JStr (stdout files_result));
                   ("statistics", JStr (stdout stat_result));
                   ("commits", JStr (stdout commits_result));
                   ("diff",
                    JStr (if include_diff then diff_content
                          else "Diff not included (set include_diff=true to see full diff)"));
                   ("truncated", JBool truncated);
                   ("total_diff_lines",
                    JInt (if include_diff
                          then Z.of_nat (List.length (split_lines diff_stdout))
                          else 0))])) in
  match attempt with
  | Ok answer => answer
  (* except Exception *)
  | Raise e => json_dumps None (JObj [("error", JStr (exc_str e))])
  end.

(** *** The pull request templates *)

Definition DEFAULT_TEMPLATES : list (string * string) :=
  [("bug.md", "Bug Fix");
   ("feature.md", "Feature");
   ("docs.md", "Documentation");
   ("refactor.md", "Refactor");
   ("test.md", "Test");
   ("performance.md", "Performance");
   ("security.md", "Security")].

Definition TYPE_MAPPING : list (string * string) :=
  [("bug", "bug.md");
   ("fix", "bug.md");
   ("feature", "feature.md");
   ("enhancement", "feature.md");
   ("docs", "docs.md");
   ("documentation", "docs.md");
   ("refactor", "refactor.md");
   ("cleanup", "refactor.md");
   ("test", "test.md");
   ("testing", "test.md");
   ("performance", "performance.md");
   ("optimization", "performance.md");
   ("security", "security.md")].

(** [table.get(key, default)] on a table of strings. *)
Fixpoint table_get (table : list (string * string)) (key default : string)
  : string :=
  match table with
  | [] => default
  | (k, v) :: table' =>
      if String.eqb key k then v else table_get table' key default
  end.

(** [TEMPLATES_DIR]: the text of the file of each name, when there is one. *)
Definition templates_dir := string -> option string.

(** The comprehension of lines 137-144, one file read per entry, in the
    order of the table. *)
Fixpoint read_templates (dir : templates_dir) (table : list (string * string))
  : outcome (list json) :=
  match table with
  | [] => Returned []
  | (filename, template_type) :: table' =>
      match dir filename with
      | None => FileNotFoundError filename
      | Some content =>
          and_then (read_templates dir table')
            (fun rest =>
               Returned (JObj [("filename", JStr filename);
                               ("type", JStr template_type);
                               ("content", JStr content)] :: rest))
      end
  end.

(** [get_pr_templates()] *)
Definition get_pr_templates (dir : templates_dir) : outcome string :=
  and_then (read_templates dir DEFAULT_TEMPLATES)
    (fun templates => Returned (json_dumps (Some 2%nat) (JArr templates))).

(** [change_type.lower()].  ASCII letters are lowered; the letters outside
    ASCII that [str.lower] changes do not lower to text that spells a key of
    [TYPE_MAPPING], so the lookup that follows is the same. *)
Definition str_lower (s : string) : string := lowercase s.

(** [templates[0]] *)
Definition first_item (v : json) : outcome json :=
  match v with
  | JArr (x :: _) => Returned x
  | JArr [] => LookupError "IndexError" "list index out of range"
  | JStr s =>
      match Py.chars s with
      | c :: _ => Returned (JStr c)
      | [] => LookupError "IndexError" "string index out of range"
      end
  | JObj _ => LookupError "KeyError" "0"
  | _ => Raised (TypeError ("'" ++ type_name v
                            ++ "' object is not subscriptable"))
  end.

(** [next((t for t in items if t["filename"] == template_file), default)] *)
Fixpoint first_template (items : list json) (template_file : string)
    (default : json) : result json :=
  match items with
  | [] => Ok default
  | t :: items' =>
      filename <- Py.item t "filename" ;;
      if Py.eq filename (JStr template_file) then Ok t
      else first_template items' template_file default
  end.

(** [suggest_template(changes_summary, change_type)] *)
Definition suggest_template (dir : templates_dir)
    (changes_summary change_type : string) : outcome string :=
  templates_response <~ get_pr_templates dir ;;
  templates <~ of_result (json_loads templates_response) ;;
  let template_file :=
    table_get TYPE_MAPPING (str_lower change_type) "feature.md" in
  items <~ of_result (Py.iter templates) ;;
  default <~ first_item templates ;;
  selected_template <~
    of_result (first_template items template_file default) ;;
  content <~ of_result (Py.item selected_template "content") ;;
  Returned
    (json_dumps (Some 2%nat)
       (JObj [("recommended_template", selected_template);
              ("reasoning",
               JStr ("Based on your analysis: '" ++ changes_summary
                     ++ "', this appears to be a " ++ change_type
                     ++ " change."));
              ("template_content", content);
              ("usage_hint",
               JStr "AI Agent can help you fill out this template based on the specific changes in your PR.")])).

End Tools.

(** ** Terms in which the properties of the tools are stated *)

Section Terms.

Context {R : Runtime}.

(** The newline characters of a text. *)
Fixpoint count_newlines (s : string) : nat :=
  match s with
  | EmptyString => 0
  | String c s' =>
      (if Ascii.eqb c newline then 1 else 0) + count_newlines s'
  end.

(** The four command lines of the tool. *)
Definition files_command (base_branch : string) : list string :=
  ["git"; "diff"; "--name-status"; (base_branch ++ "...HEAD")%string].
Definition stat_command (base_branch : string) : list string :=
  ["git"; "diff"; "--stat"; (base_branch ++ "...HEAD")%string].
Definition diff_command (base_branch : string) : list string :=
  ["git"; "diff"; (base_branch ++ "...HEAD")%string].
Definition log_command (base_branch : string) : list string :=
  ["git"; "log"; "--oneline"; (base_branch ++ "..HEAD")%string].

(** The dict of lines 116-124 for the outputs of [run], with the three
    entries on the diff given. *)
Definition analysis (run : shell) (base_branch : string)
    (diff : string) (truncated : bool) (total_diff_lines : Z) : json :=
  JObj [("base_branch", JStr base_branch);
        ("files_changed", JStr (stdout (run (files_command base_branch))));
        ("statistics", JStr (stdout (run (stat_command base_branch))));
        ("commits", JStr (stdout (run (log_command base_branch))));
        ("diff", JStr diff);
        ("truncated", JBool truncated);
        ("total_diff_lines", JInt total_diff_lines)].

(** The two lines that follow a diff that was cut. *)
Definition truncation_notice (max_diff_lines : Z) (total : nat)
  : list string :=
  [("... Output truncated. Showing " ++ Py.str_int max_diff_lines
    ++ " of " ++ Py.str_int (Z.of_nat total) ++ " lines ...")%string;
   "... Use max_diff_lines parameter to see more ..."%string].

(** The commands the tool runs all return, the first with exit code 0. *)
Definition runs_through (run : subprocess) (base_branch : string)
    (include_diff : bool) : Prop :=
  (exists files_result,
     run (files_command base_branch) = Ok files_result
     /\ returncode files_result = 0%Z)
  /\ (exists stat_result, run (stat_command base_branch) = Ok stat_result)
  /\ (include_diff = true ->
      exists diff_result, run (diff_command base_branch) = Ok diff_result)
  /\ (exists commits_result,
        run (log_command base_branch) = Ok commits_result).

(** The error report of the tool: [json.dumps({"error": msg})]. *)
Definition error_report (msg : string) : string :=
  json_dumps None (JObj [("error", JStr msg)]).

(** The entry of the list for a file and its text. *)
Definition template (filename template_type content : string) : json :=
  JObj [("filename", JStr filename);
        ("type", JStr template_type);
        ("content", JStr content)].

Definition templates_of (content : string -> string)
    (table : list (string * string)) : list json :=
  map (fun entry => template (fst entry) (snd entry) (content (fst entry)))
      table.

(** The events of the POSTs the handler takes in, in arrival order. *)
Definition accepted (posts : list (string * request)) : list Event :=
  flat_map (fun p => match received (fst p) (snd p) with
                     | Some e => [e]
                     | None => []
                     end) posts.

(** The status code each POST is due. *)
Definition due_status (p : string * request) : Z :=
  match received (fst p) (snd p) with
  | Some _ => 200%Z
  | None => 400%Z
  end.

(** A [dict]. *)
Definition is_dict (v : json) : bool :=
  match v with
  | JObj _ => true
  | _ => false
  end.

(** The key the sort takes for an entry: [x.get("timestamp", "")]. *)
Definition stamp (x : json) : string :=
  match Py.get x "timestamp" (JStr "") with
  | Ok (JStr s) => s
  | _ => EmptyString
  end.

(** An object whose timestamp is a string or is not there. *)
Definition sortable (x : json) : bool :=
  match Py.get x "timestamp" (JStr "") with
  | Ok (JStr _) => true
  | _ => false
  end.

Definition undated (x : json) : bool := String.eqb (stamp x) "".

End Terms.

(** * A reference runtime

    A small codec for the documents of [json] that satisfies the laws of
    [Runtime]: compact output, integers in decimal, the escapes of double
    quote, backslash and the usual control characters, white space skipped on
    input, a repeated key rejected.  It is what the examples are run on. *)

Module Reference.

Local Open Scope char_scope.

Definition dquote : ascii := "034".
Definition backslash : ascii := "092".

Definition is_ws (c : ascii) : bool :=
  Ascii.eqb c " " || Ascii.eqb c "010" || Ascii.eqb c "013"
  || Ascii.eqb c "009".

Fixpoint skip_ws (s : string) : string :=
  match s with
  | String c s' => if is_ws c then skip_ws s' else s
  | EmptyString => s
  end.

(** *** Output *)

Definition escape_char (c : ascii) (rest : string) : string :=
  if Ascii.eqb c dquote then String backslash (String dquote rest)
  else if Ascii.eqb c backslash then String backslash (String backslash rest)
  else if Ascii.eqb c "010" then String backslash (String "n" rest)
  else if Ascii.eqb c "013" then String backslash (String "r" rest)
  else if Ascii.eqb c "009" then String backslash (String "t" rest)
  else String c rest.

(** The body of a string literal and its closing quote, then [rest]. *)
Fixpoint print_string (s rest : string) : string :=
  match s with
  | EmptyString => String dquote rest
  | String c s' => escape_char c (print_string s' rest)
  end.

(** [print v rest] is the text of [v] followed by [rest]. *)
Fixpoint print (v : json) (rest : string) : string :=
  match v with
  | JNull => "null" ++ rest
  | JBool true => "true" ++ rest
  | JBool false => "false" ++ rest
  | JInt z => Py.str_int z ++ rest
  | JStr s => String dquote (print_string s rest)
  | JArr l =>
      String "["
        ((fix items (l : list json) : string :=
            match l with
            | [] => String "]" rest
            | [x] => print x (String "]" rest)
            | x :: l' => print x (String "," (items l'))
            end) l)
  | JObj m =>
      String "{"
        ((fix members (m : list (string * json)) : string :=
            match m with
            | [] => String "}" rest
            | [(k, x)] =>
                String dquote
                  (print_string k (String ":" (print x (String "}" rest))))
            | (k, x) :: m' =>
                String dquote
                  (print_string k
                     (String ":" (print x (String "," (members m')))))
            end) m)
  end%string.

Definition dumps (indent : option nat) (v : json) : string :=
  print v EmptyString.

(** *** Input *)

Definition unescape (c : ascii) : option ascii :=
  if Ascii.eqb c dquote then Some dquote
  else if Ascii.eqb c backslash then Some backslash
  else if Ascii.eqb c "/" then Some "/"
  else if Ascii.eqb c "n" then Some "010"
  else if Ascii.eqb c "r" then Some "013"
  else if Ascii.eqb c "t" then Some "009"
  else if Ascii.eqb c "b" then Some "008"
  else if Ascii.eqb c "f" then Some "012"
  else None.

(** After the opening quote: the string and what follows its closing quote. *)
Fixpoint parse_string (s : string) : option (string * string) :=
  match s with
  | EmptyString => None
  | String c s' =>
      if Ascii.eqb c dquote then Some (EmptyString, s')
      else if Ascii.eqb c backslash then
        match s' with
        | String e s'' =>
            match unescape e, parse_string s'' with
            | Some d, Some (str, r) => Some (String d str, r)
            | _, _ => None
            end
        | EmptyString => None
        end
      else
        match parse_string s' with
        | Some (str, r) => Some (String c str, r)
        | None => None
        end
  end.

Definition digit_of (c : ascii) : option (Decimal.uint -> Decimal.uint) :=
  match c with
  | "0" => Some Decimal.D0 | "1" => Some Decimal.D1
  | "2" => Some Decimal.D2 | "3" => Some Decimal.D3
  | "4" => Some Decimal.D4 | "5" => Some Decimal.D5
  | "6" => Some Decimal.D6 | "7" => Some Decimal.D7
  | "8" => Some Decimal.D8 | "9" => Some Decimal.D9
  | _ => None
  end.

Fixpoint digits (s : string) : Decimal.uint * string :=
  match s with
  | String c s' =>
      match digit_of c with
      | Some d => let (u, r) := digits s' in (d u, r)
      | None => (Decimal.Nil, s)
      end
  | EmptyString => (Decimal.Nil, s)
  end.

Definition parse_int (s : string) : option (Z * string) :=
  match s with
  | String c s' =>
      if Ascii.eqb c "-" then
        match digits s' with
        | (Decimal.Nil, _) => None
        | (u, r) => Some (Z.of_int (Decimal.Neg u), r)
        end
      else
        match digits s with
        | (Decimal.Nil, _) => None
        | (u, r) => Some (Z.of_int (Decimal.Pos u), r)
        end
  | EmptyString => None
  end.

Fixpoint expect (word s : string) : option string :=
  match word, s with
  | EmptyString, _ => Some s
  | String c word', String d s' =>
      if Ascii.eqb c d then expect word' s' else None
  | String _ _, EmptyString => None
  end.

Fixpoint parse_value (fuel : nat) (s : string) : option (json * string) :=
  match fuel with
  | O => None
  | S fuel' =>
      match skip_ws s with
      | EmptyString => None
      | String c rest =>
          if Ascii.eqb c "n" then
            option_map (pair JNull) (expect "ull" rest)
          else if Ascii.eqb c "t" then
            option_map (pair (JBool true)) (expect "rue" rest)
          else if Ascii.eqb c "f" then
            option_map (pair (JBool false)) (expect "alse" rest)
          else if Ascii.eqb c dquote then
            match parse_string rest with
            | Some (str, r) => Some (JStr str, r)
            | None => None
            end
          else if Ascii.eqb c "[" then
            match skip_ws rest with
            | String d r =>
                if Ascii.eqb d "]" then Some (JArr [], r)
                else
                  match parse_items fuel' rest with
                  | Some (l, r') => Some (JArr l, r')
                  | None => None
                  end
            | EmptyString => None
            end
          else if Ascii.eqb c "{" then
            match skip_ws rest with
            | String d r =>
                if Ascii.eqb d "}" then Some (JObj [], r)
                else
                  match parse_members fuel' rest with
                  | Some (m, r') => Some (JObj m, r')
                  | None => None
                  end
            | EmptyString => None
            end
          else
            match parse_int (String c rest) with
            | Some (z, r) => Some (JInt z, r)
            | None => None
            end
      end
  end

with parse_items (fuel : nat) (s : string) : option (list json * string) :=
  match fuel with
  | O => None
  | S fuel' =>
      match parse_value fuel' s with
      | Some (x, r) =>
          match skip_ws r with
          | String d r' =>
              if Ascii.eqb d "," then
                match parse_items fuel' r' with
                | Some (l, r'') => Some (x :: l, r'')
                | None => None
                end
              else if Ascii.eqb d "]" then Some ([x], r')
              else None
          | EmptyString => None
          end
      | None => None
      end
  end

with parse_members (fuel : nat) (s : string)
  : option (list (string * json) * string) :=
  match fuel with
  | O => None
  | S fuel' =>
      match skip_ws s with
      | String q r0 =>
          if Ascii.eqb q dquote then
            match parse_string r0 with
            | Some (k, r1) =>
                match skip_ws r1 with
                | String c r2 =>
                    if Ascii.eqb c ":" then
                      match parse_value fuel' r2 with
                      | Some (x, r3) =>
                          match skip_ws r3 with
                          | String d r4 =>
                              if Ascii.eqb d "," then
                                match parse_members fuel' r4 with
                                | Some (m, r5) => Some ((k, x) :: m, r5)
                                | None => None
                                end
                              else if Ascii.eqb d "}" then
                                Some ([(k, x)], r4)
                              else None
                          | EmptyString => None
                          end
                      | None => None
                      end
                    else None
                | EmptyString => None
                end
            | None => None
            end
          else None
      | EmptyString => None
      end
  end.

(** A text written with apostrophes for its double quotes. *)
Fixpoint quoted (s : string) : string :=
  match s with
  | EmptyString => EmptyString
  | String c s' => String (if Ascii.eqb c "'" then dquote else c) (quoted s')
  end.

Definition parse (s : string) : string + json :=
  match parse_value (String.length s) s with
  | Some (v, r) =>
      match skip_ws r with
      | EmptyString =>
          if wf v then inr v else inl "repeated key in an object"%string
      | String _ _ => inl "extra data after the document"%string
      end
  | None => inl "malformed JSON text"%string
  end.

(** *** The limits of the interpreter's stack

    [json.loads] gives up with [RecursionError] once it has gone down about
    a thousand arrays; [pprint], which needs several calls per level, some
    hundred levels earlier.  The codec above reads a document of any depth;
    the limits show where they are sure to: on text it rejects after that
    many opening brackets, and in [pprint]. *)

Definition recursion_limit : nat := 1000.
Definition pprint_limit : nat := 350.

(** The arrays a text opens before anything else. *)
Fixpoint opening (s : string) : nat :=
  match s with
  | String c s' => if Ascii.eqb c "["%char then S (opening s') else 0
  | EmptyString => 0
  end.

Definition loads (s : string) : exc + json :=
  match parse s with
  | inr v => inr v
  | inl msg =>
      inl (if (recursion_limit <=? opening s)%nat
           then RecursionError
                  "maximum recursion depth exceeded while decoding a JSON array from a unicode string"
           else JSONDecodeError msg)
  end.

(** The levels of arrays and objects in a document. *)
Fixpoint depth (v : json) : nat :=
  match v with
  | JArr l => S (fold_right (fun x d => Nat.max (depth x) d) 0%nat l)
  | JObj m =>
      S (fold_right (fun kv d => let '(_, x) := kv in Nat.max (depth x) d)
           0%nat m)
  | _ => 0%nat
  end.

Definition pprint (v : json) : result unit :=
  if (depth v <=? pprint_limit)%nat then Ok tt
  else Raise (RecursionError "maximum recursion depth exceeded").


End Reference.

(** * Properties *)

(** Induction on documents, with the hypothesis for each item and member. *)
Lemma json_ind (P : json -> Prop)
  (HNull : P JNull) (HBool : forall b, P (JBool b))
  (HInt : forall z, P (JInt z)) (HStr : forall s, P (JStr s))
  (HArr : forall l, Forall P l -> P (JArr l))
  (HObj : forall m, Forall (fun kv => P (snd kv)) m -> P (JObj m)) :
  forall v, P v.
Proof.
  fix IH 1. intros [ | b | z | s | l | m ].
  - exact HNull.
  - apply HBool.
  - apply HInt.
  - apply HStr.
  - apply HArr. induction l as [ | x l IHl ]; constructor; [ apply IH | exact IHl ].
  - apply HObj. induction m as [ | [k x] m IHm ]; constructor;
      [ apply IH | exact IHm ].
Qed.

(** ** The order on strings *)

Module StrOrder.

Lemma ascii_compare_refl c : Ascii.compare c c = Eq.
Proof. unfold Ascii.compare. apply N.compare_refl. Qed.

Lemma ascii_lt_trans a b c :
  Ascii.compare a b = Lt -> Ascii.compare b c = Lt -> Ascii.compare a c = Lt.
Proof.
  unfold Ascii.compare. rewrite !N.compare_lt_iff. lia.
Qed.

Lemma lt_trans a : forall b c,
  String.compare a b = Lt -> String.compare b c = Lt ->
  String.compare a c = Lt.
Proof.
  induction a as [ | x a IH ]; intros [ | y b ] [ | z c ]; simpl;
    try discriminate; auto.
  destruct (Ascii.compare x y) eqn:Hxy; try discriminate;
    destruct (Ascii.compare y z) eqn:Hyz; try discriminate; intros H1 H2.
  - apply Ascii.compare_eq_iff in Hxy, Hyz. subst.
    rewrite ascii_compare_refl. eauto.
  - apply Ascii.compare_eq_iff in Hxy. subst. now rewrite Hyz.
  - apply Ascii.compare_eq_iff in Hyz. subst. now rewrite Hxy.
  - now rewrite (ascii_lt_trans _ _ _ Hxy Hyz).
Qed.

Lemma ltb_irrefl a : String.ltb a a = false.
Proof.
  unfold String.ltb.
  assert (H : String.compare a a = Eq).
  { induction a as [ | x a IH ]; simpl; auto.
    now rewrite ascii_compare_refl. }
  now rewrite H.
Qed.

Lemma ltb_asym a b : String.ltb a b = true -> String.ltb b a = false.
Proof.
  unfold String.ltb. rewrite (String.compare_antisym b a).
  destruct (String.compare a b); simpl; auto; discriminate.
Qed.

(** [b <= a] and [c <= b] give [c <= a], with [<=] read as "not above". *)
Lemma nlt_trans a b c :
  String.ltb a b = false -> String.ltb b c = false -> String.ltb a c = false.
Proof.
  unfold String.ltb. intros Hab Hbc.
  destruct (String.compare a c) eqn:Hac; auto. exfalso.
  destruct (String.compare a b) eqn:Hab'; try discriminate.
  - apply String.compare_eq_iff in Hab'. subst b. now rewrite Hac in Hbc.
  - rewrite String.compare_antisym in Hab'.
    destruct (String.compare b a) eqn:Hba; try discriminate.
    now rewrite (lt_trans _ _ _ Hba Hac) in Hbc.
Qed.

Lemma ltb_neq a b : String.ltb a b = true -> a <> b.
Proof. intros H ->. now rewrite ltb_irrefl in H. Qed.

End StrOrder.

(** ** [sort_desc] is the stable sort, largest key first *)

Section SortDesc.

Context {A : Type} (key : A -> string).

(** [x] may stand before [y]: the key of [y] is not above that of [x]. *)
Definition not_below (x y : A) : Prop := String.ltb (key x) (key y) = false.

Lemma insert_desc_perm x l : Permutation (insert_desc key x l) (x :: l).
Proof.
  induction l as [ | y l IH ]; simpl; auto.
  destruct (String.ltb (key x) (key y)); auto.
  rewrite IH. apply perm_swap.
Qed.

Lemma sort_desc_perm l : Permutation (sort_desc key l) l.
Proof.
  induction l as [ | x l IH ]; simpl; auto.
  rewrite insert_desc_perm. now constructor.
Qed.

Lemma insert_desc_sorted x l :
  StronglySorted not_below l -> StronglySorted not_below (insert_desc key x l).
Proof.
  induction 1 as [ | y l Hs IH Hy ]; simpl.
  - repeat constructor.
  - destruct (String.ltb (key x) (key y)) eqn:Hxy.
    + constructor; auto.
      apply Forall_forall. intros z Hz.
      apply (Permutation_in _ (insert_desc_perm x l)) in Hz.
      destruct Hz as [<- | Hz].
      * now apply StrOrder.ltb_asym.
      * rewrite Forall_forall in Hy. auto.
    + constructor; [ now constructor | ].
      constructor; auto.
      eapply Forall_impl; [ | exact Hy ].
      intros z Hz. unfold not_below in *.
      eapply StrOrder.nlt_trans; eauto.
Qed.

Lemma sort_desc_sorted l : StronglySorted not_below (sort_desc key l).
Proof.
  induction l as [ | x l IH ]; simpl; [ constructor | ].
  now apply insert_desc_sorted.
Qed.

(** Stability: the events of one key come out in the order they went in. *)
Lemma insert_desc_filter k x l :
  filter (fun y => String.eqb (key y) k) (insert_desc key x l)
  = filter (fun y => String.eqb (key y) k) (x :: l).
Proof.
  induction l as [ | y l IH ]; auto.
  cbn [insert_desc]. destruct (String.ltb (key x) (key y)) eqn:Hxy; auto.
  cbn [filter] in *. rewrite IH.
  destruct (String.eqb_spec (key y) k) as [Hy | Hy]; auto.
  destruct (String.eqb_spec (key x) k) as [Hx | Hx]; auto.
  exfalso. apply (StrOrder.ltb_neq _ _ Hxy). congruence.
Qed.

Lemma sort_desc_stable k l :
  filter (fun y => String.eqb (key y) k) (sort_desc key l)
  = filter (fun y => String.eqb (key y) k) l.
Proof.
  induction l as [ | x l IH ]; auto.
  cbn [sort_desc fold_right]. rewrite insert_desc_filter.
  cbn [filter]. fold (sort_desc key l). now rewrite IH.
Qed.

Lemma insert_desc_last x l :
  Forall (fun y => String.ltb (key x) (key y) = true) l ->
  insert_desc key x l = l ++ [x].
Proof.
  induction 1 as [ | y l Hy _ IH ]; simpl; auto.
  now rewrite Hy, IH.
Qed.

(** Keys strictly increasing along the list. *)
Definition increasing (l : list A) : Prop :=
  StronglySorted (fun x y => String.ltb (key x) (key y) = true) l.

Lemma sort_desc_increasing l : increasing l -> sort_desc key l = rev l.
Proof.
  induction 1 as [ | x l Hs IH Hx ]; auto.
  cbn [sort_desc fold_right rev]. fold (sort_desc key l). rewrite IH.
  apply insert_desc_last.
  rewrite Forall_forall in *. intros y Hy. apply Hx. now apply in_rev.
Qed.

Lemma sort_desc_length l : List.length (sort_desc key l) = List.length l.
Proof. apply Permutation_length, sort_desc_perm. Qed.

End SortDesc.

Lemma insert_desc_map {A B} (key : B -> string) (g : A -> B) x l :
  insert_desc key (g x) (map g l)
  = map g (insert_desc (fun a => key (g a)) x l).
Proof.
  induction l as [ | y l IH ]; simpl; auto.
  destruct (String.ltb (key (g x)) (key (g y))); simpl; auto.
  now rewrite IH.
Qed.

Lemma sort_desc_map {A B} (key : B -> string) (g : A -> B) l :
  sort_desc key (map g l) = map g (sort_desc (fun a => key (g a)) l).
Proof.
  induction l as [ | x l IH ]; simpl; auto.
  now rewrite IH, insert_desc_map.
Qed.

(** ** Slices *)

Lemma slice_last_all {A} k (l : list A) :
  (List.length l <= k)%nat -> Py.slice_last k l = l.
Proof.
  intros H. unfold Py.slice_last.
  replace (List.length l - k)%nat with 0%nat by lia. reflexivity.
Qed.

Lemma slice_last_length {A} k (l : list A) :
  List.length (Py.slice_last k l) = Nat.min k (List.length l).
Proof. unfold Py.slice_last. rewrite length_skipn. lia. Qed.

Lemma slice_last_split {A} k (l : list A) :
  l = firstn (List.length l - k) l ++ Py.slice_last k l.
Proof. unfold Py.slice_last. now rewrite firstn_skipn. Qed.

Lemma slice_last_map {A B} (f : A -> B) k l :
  Py.slice_last k (map f l) = map f (Py.slice_last k l).
Proof. unfold Py.slice_last. now rewrite length_map, skipn_map. Qed.

(** Trimming before and after an append is trimming after it. *)
Lemma slice_last_snoc {A} k (l : list A) x :
  (0 < k)%nat ->
  Py.slice_last k (Py.slice_last k l ++ [x]) = Py.slice_last k (l ++ [x]).
Proof.
  intros Hk. unfold Py.slice_last.
  rewrite !length_app, length_skipn. cbn [List.length].
  destruct (Nat.le_gt_cases (List.length l) k) as [Hle | Hgt].
  - replace (List.length l - k)%nat with 0%nat by lia.
    cbn [skipn]. f_equal. lia.
  - rewrite !skipn_app, length_skipn, skipn_skipn.
    f_equal; f_equal; lia.
Qed.

Lemma slice_to_map {A B} (f : A -> B) k l :
  Py.slice_to k (map f l) = map f (Py.slice_to k l).
Proof.
  unfold Py.slice_to. rewrite length_map.
  destruct (0 <=? k)%Z; now rewrite firstn_map.
Qed.

(** ** The handler and the log *)

Section LogFacts.

Context {R : Runtime}.

(** *** Well-formedness is kept by what the handler does *)

Lemma forallb_skipn {A} (f : A -> bool) n l :
  forallb f l = true -> forallb f (skipn n l) = true.
Proof.
  revert l. induction n as [ | n IH ]; intros [ | x l ]; simpl; auto.
  intros H. apply andb_prop in H. apply IH, H.
Qed.

Lemma wf_event_record now ty data :
  wf (event_record now ty data) = wf data.
Proof. simpl. now rewrite andb_true_r. Qed.

Lemma load_existing_events_wf file v :
  load_existing_events file = Ok v -> wf v = true.
Proof.
  destruct file as [ text | ]; simpl.
  - unfold json_loads. destruct (json_parse text) eqn:H; try discriminate.
    intros [= <-]. eapply json_parse_wf, H.
  - now intros [= <-].
Qed.

Lemma json_loads_dumps indent v :
  wf v = true -> json_loads (json_dumps indent v) = Ok v.
Proof. intros H. unfold json_loads. now rewrite json_parse_dumps. Qed.


(** *** One POST *)

Lemma received_inv now rq e :
  received now rq = Some e ->
  exists body data,
    req_text rq = inr body
    /\ json_parse body = inr data
    /\ pprint data = Ok tt
    /\ pprint (event_record now
                 (headers_get (req_headers rq) "X-GitHub-Event" "unknown")
                 data) = Ok tt
    /\ e = {| timestamp := now;
              event_type := headers_get (req_headers rq) "X-GitHub-Event"
                              "unknown";
              payload := data |}.
Proof.
  unfold received.
  destruct (req_text rq) as [ | body ]; [ discriminate | ].
  destruct (json_parse body) as [ | data ] eqn:Hdata; [ discriminate | ].
  cbv zeta. unfold event_json. cbn [timestamp event_type payload].
  destruct (pprint data) as [ [] | ] eqn:Hprint; [ | discriminate ].
  destruct (pprint (event_record _ _ _)) as [ [] | ] eqn:Hprint';
    [ | discriminate ].
  intros [= <-]. exists body, data. auto.
Qed.

Lemma handle_webhook_stores now rq file l body data :
  req_text rq = inr body ->
  json_parse body = inr data ->
  let event :=
    event_record now (headers_get (req_headers rq) "X-GitHub-Event" "unknown")
      data in
  pprint data = Ok tt ->
  pprint event = Ok tt ->
  load_existing_events file = Ok (JArr l) ->
  let log' := Py.slice_last 100 (l ++ [event]) in
  handle_webhook now rq file
    = (acknowledged, Some (json_dumps (Some 2%nat) (JArr log')))
  /\ load_existing_events (Some (json_dumps (Some 2%nat) (JArr log')))
     = Ok (JArr log').
Proof.
  intros Hbody Hdata event Hprint Hprint' Hload log'. split.
  - unfold handle_webhook, json_loads. rewrite Hbody, Hdata. cbn [bind].
    rewrite Hprint. cbn [bind]. fold event. rewrite Hprint'. cbn [bind].
    rewrite Hload. reflexivity.
  - cbn [load_existing_events]. apply json_loads_dumps.
    apply load_existing_events_wf in Hload.
    cbn [wf] in *. unfold log', Py.slice_last. apply forallb_skipn.
    rewrite forallb_app, Hload. cbn [forallb]. unfold event.
    rewrite wf_event_record, (json_parse_wf _ _ Hdata). reflexivity.
Qed.

(** A POST that is not taken in is answered 400 and leaves the file. *)
Lemma handle_webhook_refuses now rq file :
  received now rq = None ->
  status (fst (handle_webhook now rq file)) = 400%Z
  /\ snd (handle_webhook now rq file) = file.
Proof.
  unfold received, handle_webhook, json_loads.
  destruct (req_text rq) as [ | body ]; [ split; reflexivity | ].
  destruct (json_parse body) as [ e | data ].
  - intros _. cbn [bind]. destruct e; split; reflexivity.
  - cbv zeta. unfold event_json. cbn [timestamp event_type payload bind].
    destruct (pprint data) as [ [] | e ].
    + destruct (pprint (event_record _ _ _)) as [ [] | e ];
        [ discriminate | ].
      intros _. cbn [bind]. destruct e; split; reflexivity.
    + intros _. cbn [bind]. destruct e; split; reflexivity.
Qed.

(** The handler answers 200 or 400, and when it answers 400 the file is as
    it was. *)
Lemma handle_webhook_answers now rq file :
  status (fst (handle_webhook now rq file)) = 200%Z
  \/ (status (fst (handle_webhook now rq file)) = 400%Z
      /\ snd (handle_webhook now rq file) = file).
Proof.
  destruct (received now rq) as [ e | ] eqn:Hrecv;
    [ | right; now apply handle_webhook_refuses ].
  destruct (received_inv now rq e Hrecv)
    as (body & data & Hbody & Hdata & Hprint & Hprint' & _).
  unfold handle_webhook, json_loads. rewrite Hbody, Hdata. cbn [bind].
  rewrite Hprint. cbn [bind]. rewrite Hprint'. cbn [bind].
  destruct (load_existing_events file) as [ stored | e' ]; cbn [bind].
  - destruct stored; cbn [list_append bind]; auto.
  - right. destruct e'; split; reflexivity.
Qed.

(** On a file that cannot be loaded no POST is stored. *)
Lemma handle_webhook_bad_store now rq text e :
  json_parse text = inl e ->
  status (fst (handle_webhook now rq (Some text))) = 400%Z
  /\ snd (handle_webhook now rq (Some text)) = Some text.
Proof.
  intros Htext.
  destruct (handle_webhook_answers now rq (Some text)) as [Hok | Hbad];
    [ exfalso | exact Hbad ].
  revert Hok. unfold handle_webhook, json_loads.
  destruct (req_text rq) as [ | body ]; [ discriminate | ].
  destruct (json_parse body) as [ e0 | data ]; cbn [bind];
    [ destruct e0; discriminate | ].
  destruct (pprint data) as [ [] | e0 ]; cbn [bind];
    [ | destruct e0; discriminate ].
  destruct (pprint (event_record _ _ _)) as [ [] | e0 ]; cbn [bind];
    [ | destruct e0; discriminate ].
  cbn [load_existing_events]. unfold json_loads. rewrite Htext. cbn [bind].
  destruct e; discriminate.
Qed.

(** *** A run of POSTs *)

Lemma deliver_appends posts : forall events file old,
  Forall2 (fun p e => received (fst p) (snd p) = Some e) posts events ->
  load_existing_events file = Ok (log_json (Py.slice_last 100 old)) ->
  load_existing_events (snd (deliver posts file))
    = Ok (log_json (Py.slice_last 100 (old ++ events)))
  /\ Forall (eq acknowledged) (fst (deliver posts file)).
Proof.
  induction posts as [ | [now rq] posts IH ]; intros events file old Hall Hload.
  - inversion Hall; subst. rewrite app_nil_r. simpl. auto.
  - inversion Hall as [ | p e ps es Hrecv Hrest ]; subst.
    cbn [fst snd] in Hrecv.
    destruct (received_inv now rq e Hrecv)
      as (body & data & Hbody & Hdata & Hprint & Hprint' & ->).
    set (e := Build_Event _ _ _) in *.
    destruct (handle_webhook_stores now rq file
                (map event_json (Py.slice_last 100 old)) body data
                Hbody Hdata Hprint Hprint' Hload)
      as [Hstep Hread].
    cbn [deliver]. rewrite Hstep.
    set (file' := Some (json_dumps _ _)) in *.
    specialize (IH es file' (old ++ [e])).
    destruct (deliver posts file') as [resps file''] eqn:Hrun.
    cbn [fst snd] in *.
    rewrite <- app_assoc in IH. cbn [app] in IH.
    destruct (IH Hrest) as [IH1 IH2].
    + rewrite Hread. unfold log_json. f_equal. f_equal.
      rewrite <- (slice_last_map event_json 100 (old ++ [e])), map_app.
      rewrite <- (slice_last_map event_json 100 old).
      apply (slice_last_snoc 100 (map event_json old) (event_json e)). lia.
    + split; auto.
Qed.

End LogFacts.

(** ** The reference codec reads back what it writes *)

Module ReferenceFacts.

Import Reference.
Local Open Scope char_scope.

Lemma length_append (a b : string) :
  String.length (a ++ b) = (String.length a + String.length b)%nat.
Proof. induction a as [ | c a IH ]; simpl; auto. Qed.

(** The head of a text is no digit: a number before it ends there. *)
Definition ends_number (rest : string) : Prop :=
  match rest with
  | String c _ => digit_of c = None
  | EmptyString => True
  end.

Lemma digits_stop rest : ends_number rest -> digits rest = (Decimal.Nil, rest).
Proof. destruct rest as [ | c rest ]; simpl; auto. now intros ->. Qed.

Lemma digits_print u rest :
  ends_number rest ->
  digits (NilEmpty.string_of_uint u ++ rest) = (u, rest).
Proof.
  intros H. induction u; cbn [NilEmpty.string_of_uint String.append];
    [ now apply digits_stop | .. ];
    cbn [digits digit_of]; now rewrite IHu.
Qed.

Lemma str_int_cases z :
  (exists u, u <> Decimal.Nil
             /\ Py.str_int z = NilEmpty.string_of_uint u
             /\ Z.of_int (Decimal.Pos u) = z)
  \/ (exists u, u <> Decimal.Nil
                /\ Py.str_int z = String "-" (NilEmpty.string_of_uint u)
                /\ Z.of_int (Decimal.Neg u) = z).
Proof.
  unfold Py.str_int. destruct z as [ | p | p ]; cbn [Z.to_int].
  - left. exists (Decimal.D0 Decimal.Nil). repeat split. discriminate.
  - left. exists (Pos.to_uint p).
    pose proof (DecimalPos.Unsigned.to_uint_nonnil p) as Hp.
    split; [ exact Hp | split; [ | apply (DecimalZ.of_to (Zpos p)) ] ].
    cbn. now destruct (Pos.to_uint p).
  - right. exists (Pos.to_uint p).
    pose proof (DecimalPos.Unsigned.to_uint_nonnil p) as Hp.
    split; [ exact Hp | split; [ | apply (DecimalZ.of_to (Zneg p)) ] ].
    cbn. now destruct (Pos.to_uint p).
Qed.

Lemma parse_int_print z rest :
  ends_number rest -> parse_int (Py.str_int z ++ rest) = Some (z, rest).
Proof.
  intros H.
  destruct (str_int_cases z) as [(u & Hu & -> & <-) | (u & Hu & -> & <-)].
  - unfold parse_int.
    destruct (NilEmpty.string_of_uint u ++ rest)%string as [ | c s ] eqn:Hs.
    { destruct u; discriminate || contradiction. }
    assert (Hc : Ascii.eqb c "-" = false).
    { destruct u; try contradiction; cbn in Hs; injection Hs as <- _;
        reflexivity. }
    rewrite Hc, <- Hs, digits_print by assumption.
    destruct u; try contradiction; reflexivity.
  - cbn [String.append parse_int]. cbn [Ascii.eqb Bool.eqb].
    rewrite digits_print by assumption.
    destruct u; try contradiction; reflexivity.
Qed.

(** *** Strings *)

Lemma parse_string_print s rest :
  parse_string (print_string s rest) = Some (s, rest).
Proof.
  induction s as [ | c s IH ]; cbn [print_string].
  - reflexivity.
  - unfold escape_char.
    destruct (Ascii.eqb_spec c dquote) as [-> | Hq].
    { cbn. now rewrite IH. }
    destruct (Ascii.eqb_spec c backslash) as [-> | Hb].
    { cbn. now rewrite IH. }
    destruct (Ascii.eqb_spec c "010") as [-> | Hn].
    { cbn. now rewrite IH. }
    destruct (Ascii.eqb_spec c "013") as [-> | Hr].
    { cbn. now rewrite IH. }
    destruct (Ascii.eqb_spec c "009") as [-> | Ht].
    { cbn. now rewrite IH. }
    cbn [parse_string].
    apply Ascii.eqb_neq in Hq, Hb. now rewrite Hq, Hb, IH.
Qed.

Lemma print_string_length s rest :
  (S (String.length rest) <= String.length (print_string s rest))%nat.
Proof.
  induction s as [ | c s IH ]; cbn [print_string]; [ simpl; lia | ].
  unfold escape_char.
  repeat match goal with |- context [if ?b then _ else _] => destruct b end;
    simpl; lia.
Qed.

(** *** Documents *)

Definition print_items (rest : string) : list json -> string :=
  fix items (l : list json) : string :=
    match l with
    | [] => String "]" rest
    | [x] => print x (String "]" rest)
    | x :: l' => print x (String "," (items l'))
    end.

Definition print_members (rest : string) : list (string * json) -> string :=
  fix members (m : list (string * json)) : string :=
    match m with
    | [] => String "}" rest
    | [(k, x)] =>
        String dquote (print_string k (String ":" (print x (String "}" rest))))
    | (k, x) :: m' =>
        String dquote
          (print_string k (String ":" (print x (String "," (members m')))))
    end.

Lemma print_arr l rest : print (JArr l) rest = String "[" (print_items rest l).
Proof. reflexivity. Qed.

Lemma print_obj m rest :
  print (JObj m) rest = String "{" (print_members rest m).
Proof. reflexivity. Qed.

(** Fuel that is enough to read a document back. *)
Fixpoint need (v : json) : nat :=
  match v with
  | JArr l =>
      S ((fix items (l : list json) : nat :=
            match l with
            | [] => O
            | x :: l' => S (Nat.max (need x) (items l'))
            end) l)
  | JObj m =>
      S ((fix members (m : list (string * json)) : nat :=
            match m with
            | [] => O
            | (_, x) :: m' => S (Nat.max (need x) (members m'))
            end) m)
  | _ => 1
  end.

Definition need_items : list json -> nat :=
  fix items (l : list json) : nat :=
    match l with
    | [] => O
    | x :: l' => S (Nat.max (need x) (items l'))
    end.

Definition need_members : list (string * json) -> nat :=
  fix members (m : list (string * json)) : nat :=
    match m with
    | [] => O
    | (_, x) :: m' => S (Nat.max (need x) (members m'))
    end.

Lemma need_arr l : need (JArr l) = S (need_items l).
Proof. reflexivity. Qed.

Lemma need_obj m : need (JObj m) = S (need_members m).
Proof. reflexivity. Qed.

(** A character a value can start with. *)
Definition starts_value (c : ascii) : Prop :=
  is_ws c = false /\ Ascii.eqb c "]" = false /\ Ascii.eqb c "}" = false.

Lemma number_head c :
  digit_of c <> None \/ c = "-" ->
  starts_value c
  /\ Ascii.eqb c "n" = false /\ Ascii.eqb c "t" = false
  /\ Ascii.eqb c "f" = false /\ Ascii.eqb c dquote = false
  /\ Ascii.eqb c "[" = false /\ Ascii.eqb c "{" = false.
Proof.
  intros [H | ->]; [ | repeat split ].
  destruct c as [[|] [|] [|] [|] [|] [|] [|] [|]]; cbn in H;
    try congruence; repeat split.
Qed.

Lemma str_int_head z rest :
  exists c s, (Py.str_int z ++ rest)%string = String c s
              /\ (digit_of c <> None \/ c = "-").
Proof.
  destruct (str_int_cases z) as [(u & Hu & -> & _) | (u & Hu & -> & _)].
  - destruct u; try contradiction; cbn; eexists _, _; split; eauto;
      left; discriminate.
  - cbn. eauto.
Qed.

Lemma print_head v rest :
  exists c s, print v rest = String c s /\ starts_value c.
Proof.
  destruct v as [ | [ | ] | z | s | l | m ]; cbn [print String.append];
    try (eexists _, _; split; [ reflexivity | repeat split ]).
  destruct (str_int_head z rest) as (c & s & -> & Hc).
  exists c, s. split; auto. now apply number_head.
Qed.

Lemma skip_ws_head c s : is_ws c = false -> skip_ws (String c s) = String c s.
Proof. intros H. cbn [skip_ws]. now rewrite H. Qed.

Definition reads_back (v : json) : Prop :=
  forall fuel rest,
    (need v <= fuel)%nat -> ends_number rest ->
    parse_value fuel (print v rest) = Some (v, rest).

Lemma parse_items_print rest l :
  Forall reads_back l -> l <> [] ->
  forall fuel, (need_items l <= fuel)%nat ->
  parse_items fuel (print_items rest l) = Some (l, rest).
Proof.
  induction 1 as [ | x l Hx Hl IH ]; [ congruence | intros _ fuel Hfuel ].
  cbn [need_items] in Hfuel. destruct fuel as [ | fuel ]; [ lia | ].
  cbn [parse_items]. destruct l as [ | y l ].
  - cbn [print_items]. rewrite Hx by (cbn; first [ lia | reflexivity ]). cbn. reflexivity.
  - change (print_items rest (x :: y :: l))
      with (print x (String "," (print_items rest (y :: l)))).
    rewrite Hx by (cbn; first [ lia | reflexivity ]).
    cbn [skip_ws is_ws Ascii.eqb Bool.eqb orb].
    rewrite IH by (congruence || lia). reflexivity.
Qed.

Lemma parse_members_print rest m :
  Forall (fun kv => reads_back (snd kv)) m -> m <> [] ->
  forall fuel, (need_members m <= fuel)%nat ->
  parse_members fuel (print_members rest m) = Some (m, rest).
Proof.
  induction 1 as [ | [k x] m Hx Hm IH ]; [ congruence | intros _ fuel Hfuel ].
  cbn [need_members snd] in *. destruct fuel as [ | fuel ]; [ lia | ].
  cbn [parse_members]. destruct m as [ | [k' y] m ].
  - cbn [print_members]. rewrite skip_ws_head by reflexivity.
    change (Ascii.eqb dquote dquote) with true. cbn iota.
    rewrite parse_string_print. cbn [skip_ws is_ws Ascii.eqb Bool.eqb orb].
    rewrite Hx by (cbn; first [ lia | reflexivity ]). cbn. reflexivity.
  - change (print_members rest ((k, x) :: (k', y) :: m))
      with (String dquote
              (print_string k
                 (String ":"
                    (print x
                       (String "," (print_members rest ((k', y) :: m))))))).
    rewrite skip_ws_head by reflexivity.
    change (Ascii.eqb dquote dquote) with true. cbn iota.
    rewrite parse_string_print. cbn [skip_ws is_ws Ascii.eqb Bool.eqb orb].
    rewrite Hx by (cbn; first [ lia | reflexivity ]).
    cbn [skip_ws is_ws Ascii.eqb Bool.eqb orb].
    rewrite IH by (congruence || lia). reflexivity.
Qed.

Lemma parse_print v : reads_back v.
Proof.
  induction v as [ | b | z | s | l IH | m IH ] using json_ind;
    intros fuel rest Hfuel Hrest;
    (destruct fuel as [ | fuel ]; [ cbn in Hfuel; lia | ]).
  - reflexivity.
  - destruct b; reflexivity.
  - cbn [print parse_value].
    destruct (str_int_head z rest) as (c & s & Hs & Hc).
    destruct (number_head c Hc) as ((Hws & _) & Hn & Ht & Hf & Hq & Ha & Ho).
    rewrite Hs, skip_ws_head, Hn, Ht, Hf, Hq, Ha, Ho by assumption.
    now rewrite <- Hs, parse_int_print.
  - cbn [print parse_value]. rewrite skip_ws_head by reflexivity.
    cbn [Ascii.eqb Bool.eqb]. change (Ascii.eqb dquote dquote) with true.
    cbn iota. now rewrite parse_string_print.
  - rewrite print_arr. cbn [parse_value].
    rewrite skip_ws_head by reflexivity. cbn [Ascii.eqb Bool.eqb].
    destruct l as [ | x l ]; [ reflexivity | ].
    destruct (print_head x (match l with
                            | [] => String "]" rest
                            | _ :: _ =>
                                String "," (print_items rest l)
                            end)) as (c & s & Hs & Hws & Hc & _).
    assert (Hitems : print_items rest (x :: l) = String c s).
    { rewrite <- Hs. now destruct l. }
    rewrite Hitems, skip_ws_head, Hc, <- Hitems by assumption.
    rewrite need_arr in Hfuel.
    rewrite parse_items_print; auto; [ congruence | lia ].
  - rewrite print_obj. cbn [parse_value].
    rewrite skip_ws_head by reflexivity. cbn [Ascii.eqb Bool.eqb].
    destruct m as [ | [k x] m ]; [ reflexivity | ].
    assert (Hmembers : exists s, print_members rest ((k, x) :: m)
                                 = String dquote s).
    { destruct m as [ | [k' y] m ]; eexists; reflexivity. }
    destruct Hmembers as (s & Hs).
    rewrite Hs, skip_ws_head by reflexivity.
    change (Ascii.eqb dquote "}") with false. cbn iota. rewrite <- Hs.
    rewrite need_obj in Hfuel.
    rewrite parse_members_print; auto; [ congruence | lia ].
Qed.

(** *** The length of the text is fuel enough *)

Lemma str_int_length z : (1 <= String.length (Py.str_int z))%nat.
Proof.
  destruct (str_int_cases z) as [(u & Hu & -> & _) | (u & Hu & -> & _)].
  - destruct u; try contradiction; simpl; lia.
  - simpl. lia.
Qed.

Definition long_enough (v : json) : Prop :=
  forall rest,
    (need v + String.length rest <= String.length (print v rest))%nat.

Lemma print_items_length rest l :
  Forall long_enough l ->
  (need_items l + String.length rest
   <= String.length (print_items rest l))%nat.
Proof.
  induction 1 as [ | x l Hx Hl IH ]; [ simpl; lia | ].
  destruct l as [ | y l ].
  - cbn [print_items need_items]. specialize (Hx (String "]" rest)).
    cbn [String.length] in Hx. lia.
  - change (print_items rest (x :: y :: l))
      with (print x (String "," (print_items rest (y :: l)))).
    specialize (Hx (String "," (print_items rest (y :: l)))).
    cbn [String.length] in Hx.
    change (need_items (x :: y :: l))
      with (S (Nat.max (need x) (need_items (y :: l)))).
    lia.
Qed.

Lemma print_members_length rest m :
  Forall (fun kv => long_enough (snd kv)) m ->
  (need_members m + String.length rest
   <= String.length (print_members rest m))%nat.
Proof.
  induction 1 as [ | [k x] m Hx Hm IH ]; [ simpl; lia | ].
  cbn [snd] in Hx. destruct m as [ | [k' y] m ].
  - cbn [print_members need_members].
    specialize (Hx (String "}" rest)).
    pose proof (print_string_length k
                  (String ":" (print x (String "}" rest)))) as Hk.
    cbn [String.length] in *. lia.
  - change (print_members rest ((k, x) :: (k', y) :: m))
      with (String dquote
              (print_string k
                 (String ":"
                    (print x
                       (String "," (print_members rest ((k', y) :: m))))))).
    specialize (Hx (String "," (print_members rest ((k', y) :: m)))).
    pose proof (print_string_length k
                  (String ":"
                     (print x
                        (String ","
                           (print_members rest ((k', y) :: m)))))) as Hk.
    cbn [String.length] in *.
    change (need_members ((k, x) :: (k', y) :: m))
      with (S (Nat.max (need x) (need_members ((k', y) :: m)))).
    lia.
Qed.

Lemma print_length v : long_enough v.
Proof.
  induction v as [ | b | z | s | l IH | m IH ] using json_ind; intros rest.
  - simpl. lia.
  - destruct b; simpl; lia.
  - cbn [print need]. rewrite length_append.
    pose proof (str_int_length z). lia.
  - cbn [print need String.length].
    pose proof (print_string_length s rest). lia.
  - rewrite print_arr, need_arr. cbn [String.length].
    pose proof (print_items_length rest l IH). lia.
  - rewrite print_obj, need_obj. cbn [String.length].
    pose proof (print_members_length rest m IH). lia.
Qed.

Lemma parse_wf s v : parse s = inr v -> wf v = true.
Proof.
  unfold parse.
  destruct (parse_value (String.length s) s) as [ [w r] | ];
    try discriminate.
  destruct (skip_ws r); try discriminate.
  destruct (wf w) eqn:Hw; try discriminate. now intros [= <-].
Qed.

Lemma parse_dumps indent v : wf v = true -> parse (dumps indent v) = inr v.
Proof.
  intros Hwf. unfold parse, dumps.
  rewrite parse_print; [ now rewrite Hwf | | exact I ].
  pose proof (print_length v EmptyString). lia.
Qed.

Lemma loads_wf s v : loads s = inr v -> wf v = true.
Proof.
  unfold loads. destruct (parse s) as [ msg | w ] eqn:Hparse;
    [ discriminate | ].
  intros [= <-]. exact (parse_wf s w Hparse).
Qed.

Lemma loads_dumps indent v : wf v = true -> loads (dumps indent v) = inr v.
Proof. intros Hwf. unfold loads. now rewrite (parse_dumps indent v Hwf). Qed.

End ReferenceFacts.

(** The reference runtime leaves keys that are not all strings unsorted when
    there is nothing to compare, and refuses them otherwise. *)
Definition reference : Runtime := {|
  json_parse := Reference.loads;
  json_dumps := Reference.dumps;
  pprint := Reference.pprint;
  sorted_other := fun keys items =>
    match keys with
    | [] | [_] => Ok items
    | _ :: _ :: _ =>
        Raise (TypeError "keys of these types are not ordered")
    end;
  json_parse_wf := ReferenceFacts.loads_wf;
  json_parse_dumps := ReferenceFacts.loads_dumps
|}.

(** ** The tools on a log *)

Section QueryFacts.

Context {R : Runtime}.

Lemma ltb_false_leb a b : String.ltb a b = false <-> String.leb b a = true.
Proof.
  unfold String.ltb, String.leb. rewrite (String.compare_antisym b a).
  destruct (String.compare a b); simpl; split; auto; discriminate.
Qed.

Lemma StronglySorted_weaken {A} (P Q : A -> A -> Prop) l :
  (forall a b, P a b -> Q a b) -> StronglySorted P l -> StronglySorted Q l.
Proof.
  intros HPQ. induction 1 as [ | x l Hs IH Hx ]; constructor; auto.
  eapply Forall_impl; [ | exact Hx ]. auto.
Qed.

Lemma timestamps_of_log log :
  mapM (fun x => Py.get x "timestamp" (JStr "")) (map event_json log)
  = Ok (map (fun e => JStr (timestamp e)) log).
Proof.
  induction log as [ | e log IH ]; auto.
  cbn [map mapM]. rewrite IH. reflexivity.
Qed.

Lemma str_keys_of_log log :
  str_keys (map (fun e => JStr (timestamp e)) log) = Some (map timestamp log).
Proof.
  induction log as [ | e log IH ]; auto.
  cbn [map str_keys]. now rewrite IH.
Qed.

Lemma combine_map {A B C} (f : A -> B) (g : A -> C) l :
  combine (map f l) (map g l) = map (fun x => (f x, g x)) l.
Proof. induction l as [ | x l IH ]; simpl; congruence. Qed.

Lemma sorted_reverse_log log :
  sorted_reverse (map (fun e => JStr (timestamp e)) log) (map event_json log)
  = Ok (map event_json (sort_desc timestamp log)).
Proof.
  unfold sorted_reverse. rewrite str_keys_of_log, combine_map.
  rewrite (sort_desc_map fst (fun e => (timestamp e, event_json e))).
  now rewrite map_map.
Qed.

(** Two texts of different documents differ, whatever the indentation. *)
Lemma json_dumps_distinct indent indent' v w :
  wf v = true -> wf w = true -> v <> w ->
  json_dumps indent v <> json_dumps indent' w.
Proof.
  intros Hv Hw Hneq H.
  apply (json_parse_dumps indent) in Hv. apply (json_parse_dumps indent') in Hw.
  rewrite H in Hv. congruence.
Qed.

(** An array is never mistaken for the error report. *)
Lemma array_is_no_read_failure indent items msg :
  wf (JArr items) = true -> json_dumps indent (JArr items) <> read_failure msg.
Proof.
  intros H. apply json_dumps_distinct; auto. discriminate.
Qed.

Lemma status_is_no_read_failure text msg :
  json_dumps None (JObj [("status", JStr text)]) <> read_failure msg.
Proof. apply json_dumps_distinct; auto. discriminate. Qed.

(** Any selection of the events of a well-formed log is well formed. *)
Lemma wf_selection log chosen :
  wf (log_json log) = true -> incl chosen log -> wf (log_json chosen) = true.
Proof.
  cbn [wf log_json]. rewrite !forallb_forall. intros H Hincl x Hx.
  apply in_map_iff in Hx as (e & <- & He).
  apply H, in_map, Hincl, He.
Qed.

Lemma firstn_incl {A} n (l : list A) : incl (firstn n l) l.
Proof.
  intros x Hx. rewrite <- (firstn_skipn n l). apply in_or_app. now left.
Qed.

Lemma slice_to_incl {A} k (l : list A) : incl (Py.slice_to k l) l.
Proof. unfold Py.slice_to. destruct (0 <=? k)%Z; apply firstn_incl. Qed.

(** [get_recent_actions_events] on a file that holds a log. *)
Lemma get_recent_actions_events_log text log limit :
  json_parse text = inr (log_json log) ->
  get_recent_actions_events (Some text) limit
  = json_dumps (Some 2%nat)
      (log_json (Py.slice_to limit (sort_desc timestamp log))).
Proof.
  intros H. unfold get_recent_actions_events, json_loads. rewrite H.
  cbn [bind log_json Py.iter]. rewrite timestamps_of_log. cbn [bind].
  rewrite sorted_reverse_log. cbn [bind]. now rewrite slice_to_map.
Qed.

Lemma get_recent_actions_events_no_error text log limit msg :
  json_parse text = inr (log_json log) ->
  get_recent_actions_events (Some text) limit <> read_failure msg.
Proof.
  intros H. rewrite (get_recent_actions_events_log text log limit H).
  apply array_is_no_read_failure.
  apply (wf_selection log); [ exact (json_parse_wf _ _ H) | ].
  intros e He. apply slice_to_incl in He.
  eapply Permutation_in; [ apply sort_desc_perm | exact He ].
Qed.

Lemma workflow_run_payloads_log log :
  workflow_run_payloads (map event_json log) = Ok (workflow_runs log).
Proof.
  unfold workflow_runs.
  induction log as [ | e log IH ]; auto.
  cbn [map workflow_run_payloads filter]. rewrite IH.
  cbn [event_json event_record Py.get Py.lookup String.eqb Ascii.eqb Bool.eqb
       bind Py.eq].
  destruct (String.eqb (event_type e) "workflow_run"); reflexivity.
Qed.

(** [get_workflow_status] on a file that holds a log. *)
Lemma get_workflow_status_log text log workflow_name :
  json_parse text = inr (log_json log) ->
  get_workflow_status (Some text) workflow_name
  = report_workflow_runs (workflow_runs log) workflow_name.
Proof.
  intros H. unfold get_workflow_status, json_loads. rewrite H.
  cbn [log_json Py.iter bind]. now rewrite workflow_run_payloads_log.
Qed.

End QueryFacts.

(** ** The loop of [get_workflow_status] on payloads with the expected fields *)

Section RunFacts.



Lemma classify_unnamed run :
  classify run = Some Unnamed ->
  exists name, workflow_name_of run = Ok name /\ Py.truthy name = false.
Proof.
  unfold classify.
  destruct (workflow_name_of run) as [ name | ]; [ | discriminate ].
  destruct (Py.truthy name) eqn:Ht; eauto.
  destruct name; try discriminate.
  destruct (workflow_run_field run "id") as [ [ | | | | | ] | ]; discriminate.
Qed.





(** A payload without a name to report under leaves the dict as it is. *)
Lemma record_run_unnamed statuses run :
  classify run = Some Unnamed -> record_run statuses run = Ok statuses.
Proof.
  intros H. destruct (classify_unnamed run H) as (name & Hname & Ht).
  unfold record_run. rewrite Hname. cbn [bind]. now rewrite Ht.
Qed.


(** *** What [keep_run] keeps *)



(** *** The entry kept for a name *)








(** *** The names kept *)





Lemma kept_members_keys k : map fst (kept_members k) = map fst k.
Proof. unfold kept_members. rewrite map_map. reflexivity. Qed.




(** *** The name filter of line 231 *)

Lemma filterM_named wanted runs :
  Forall (fun run => exists name, workflow_name_of run = Ok name) runs ->
  filterM (fun run =>
             name <- workflow_name_of run ;; Ok (Py.eq name (JStr wanted)))
          runs
  = Ok (filter (named_as wanted) runs).
Proof.
  induction 1 as [ | run runs (name & Hname) _ IH ]; auto.
  cbn [filterM filter]. unfold named_as at 1. rewrite Hname, IH.
  cbn [bind]. now destruct (Py.eq name (JStr wanted)).
Qed.






End RunFacts.

(** ** What [get_workflow_status] reports *)

Section ReportFacts.

Context {R : Runtime}.



Lemma report_filtered runs name :
  runs <> [] -> name <> "" ->
  Forall (fun run => exists v, workflow_name_of run = Ok v) runs ->
  report_workflow_runs runs (Some name)
  = match filter (named_as name) runs with
    | [] =>
        Ok (json_dumps None
              (JObj [("status",
                      JStr ("No workflow runs found for '" ++ name ++ "'."))]))
    | (_ :: _) as found =>
        latest_statuses <- record_runs [] found ;;
        Ok (json_dumps (Some 2%nat) (dict_json latest_statuses))
    end.
Proof.
  intros Hne Hname Hread. destruct runs as [ | r runs ]; [ congruence | ].
  unfold report_workflow_runs, given.
  apply String.eqb_neq in Hname. rewrite Hname. cbn [negb].
  rewrite (filterM_named name (r :: runs) Hread). cbn [bind].
  now destruct (filter (named_as name) (r :: runs)).
Qed.

Lemma workflow_runs_none log :
  Forall (fun e => event_type e <> "workflow_run") log -> workflow_runs log = [].
Proof.
  unfold workflow_runs. induction 1 as [ | e log He _ IH ]; auto.
  cbn [filter]. apply String.eqb_neq in He. now rewrite He.
Qed.

Lemma named_as_none name runs :
  Forall (fun run => exists v, workflow_name_of run = Ok v
                               /\ Py.eq v (JStr name) = false) runs ->
  filter (named_as name) runs = [].
Proof.
  induction 1 as [ | run runs (v & Hv & Hneq) _ IH ]; auto.
  cbn [filter]. unfold named_as at 1. now rewrite Hv, Hneq.
Qed.


(** *** Payloads without a workflow name *)

Lemma record_run_skips statuses run :
  unnamed run = true -> record_run statuses run = Ok statuses.
Proof.
  unfold unnamed, record_run.
  destruct (workflow_name_of run) as [ name | ]; [ | discriminate ].
  cbn [bind]. intros H. now rewrite H.
Qed.

Lemma record_runs_skip runs : forall statuses,
  record_runs statuses runs
  = record_runs statuses (filter (fun run => negb (unnamed run)) runs).
Proof.
  induction runs as [ | run runs IH ]; intros statuses; auto.
  cbn [record_runs filter].
  destruct (unnamed run) eqn:Hrun; cbn [negb].
  - rewrite (record_run_skips statuses run Hrun). cbn [bind]. apply IH.
  - cbn [record_runs]. destruct (record_run statuses run); cbn [bind]; auto.
Qed.

Lemma dict_set_keys k v d :
  map fst (dict_set k v d) = add_name (map fst d) k.
Proof.
  unfold add_name. induction d as [ | [k' v'] d IH ]; auto.
  cbn [dict_set map fst existsb].
  destruct (Py.eq k k'); cbn [orb map fst]; auto.
  rewrite IH. now destruct (existsb (Py.eq k) (map fst d)).
Qed.

Lemma dict_find_keys k d v :
  dict_find k d = Some v -> existsb (Py.eq k) (map fst d) = true.
Proof.
  induction d as [ | [k' v'] d IH ]; [ discriminate | ].
  cbn [dict_find map fst existsb]. destruct (Py.eq k k'); auto.
Qed.

Lemma record_run_keys statuses run statuses' :
  unnamed run = false ->
  record_run statuses run = Ok statuses' ->
  exists name,
    workflow_name_of run = Ok name
    /\ Py.truthy name = true
    /\ map fst statuses' = add_name (map fst statuses) name.
Proof.
  unfold unnamed, record_run.
  destruct (workflow_name_of run) as [ name | ]; [ | discriminate ].
  cbn [bind]. destruct (Py.truthy name) eqn:Ht; [ | discriminate ].
  intros _. cbn [negb].
  destruct (workflow_run_field run "id") as [ run_id | ]; [ | discriminate ].
  cbn [bind].
  destruct (workflow_run_field run "updated_at") as [ stamp | ];
    [ | discriminate ].
  cbn [bind].
  destruct (hashable name); [ | discriminate ].
  assert (Hset : forall st conclusion,
             map fst (dict_set name
                        (JObj [("id", run_id); ("status", st);
                               ("conclusion", conclusion);
                               ("timestamp", stamp)]) statuses)
             = add_name (map fst statuses) name)
    by (intros; apply dict_set_keys).
  destruct (dict_find name statuses) as [ kept | ] eqn:Hfind.
  - destruct (Py.item kept "id") as [ kept_id | ]; [ | discriminate ].
    cbn [bind]. destruct (Py.gt run_id kept_id) as [ [ | ] | ];
      [ | | discriminate ]; cbn [bind].
    + destruct (workflow_run_field run "status") as [ st | ];
        [ | discriminate ].
      cbn [bind].
      destruct (workflow_run_field run "conclusion") as [ conclusion | ];
        [ | discriminate ].
      cbn [bind]. intros [= <-]. exists name. auto.
    + intros [= <-]. exists name. repeat split; auto.
      unfold add_name. now rewrite (dict_find_keys name statuses kept Hfind).
  - cbn [bind].
    destruct (workflow_run_field run "status") as [ st | ];
      [ | discriminate ].
    cbn [bind].
    destruct (workflow_run_field run "conclusion") as [ conclusion | ];
      [ | discriminate ].
    cbn [bind]. intros [= <-]. exists name. auto.
Qed.

Lemma record_runs_keys runs : forall statuses statuses',
  Forall (fun run => unnamed run = false) runs ->
  record_runs statuses runs = Ok statuses' ->
  exists names,
    mapM workflow_name_of runs = Ok names
    /\ forallb Py.truthy names = true
    /\ map fst statuses' = fold_left add_name names (map fst statuses).
Proof.
  induction runs as [ | run runs IH ]; intros statuses statuses' Hall.
  - intros [= <-]. exists []. auto.
  - inversion Hall as [ | ? ? Hrun Hruns ]; subst.
    cbn [record_runs].
    destruct (record_run statuses run) as [ statuses1 | ] eqn:Hstep;
      [ | discriminate ].
    cbn [bind]. intros Hrest.
    destruct (record_run_keys statuses run statuses1 Hrun Hstep)
      as (name & Hname & Ht & Hkeys).
    destruct (IH statuses1 statuses' Hruns Hrest)
      as (names & Hnames & Hts & Hkeys').
    exists (name :: names). cbn [mapM]. rewrite Hname, Hnames.
    cbn [bind forallb fold_left]. rewrite Ht, Hts, Hkeys', Hkeys. auto.
Qed.

Lemma report_skips runs :
  runs <> [] ->
  report_workflow_runs runs None
  = (latest_statuses <-
       record_runs [] (filter (fun run => negb (unnamed run)) runs) ;;
     Ok (json_dumps (Some 2%nat) (dict_json latest_statuses))).
Proof.
  intros Hne. destruct runs as [ | r runs ]; [ congruence | ].
  cbn [report_workflow_runs given bind].
  now rewrite (record_runs_skip (r :: runs) []).
Qed.

End ReportFacts.

(** * The claims *)

Section Claims.

Context {R : Runtime}.

(** C1: for every sequence of POSTs that the handler takes in (the body is
    read as JSON and printed, see [received]), handled one after
    the other from an absent events file, reading the file afterwards yields
    the last min(N, 100) events in arrival order: all of them while N <= 100,
    and for N > 100 exactly the 100 most recent, oldest first, the N - 100
    earliest being gone.  Every one of the POSTs is acknowledged. *)
Theorem ingested_events_are_the_last_100
    (posts : list (string * request)) (events : list Event) :
  Forall2 (fun p e => received (fst p) (snd p) = Some e) posts events ->
  let kept := Py.slice_last 100 events in
  load_existing_events (snd (deliver posts None)) = Ok (log_json kept)
  /\ Forall (eq acknowledged) (fst (deliver posts None))
  /\ List.length kept = Nat.min 100 (List.length events)
  /\ (List.length events <= 100 -> kept = events)
  /\ (100 < List.length events ->
      events = firstn (List.length events - 100) events ++ kept).
Proof.
  intros Hposts kept.
  destruct (deliver_appends posts events None [] Hposts eq_refl)
    as [Hread Hack].
  repeat split; auto.
  - apply slice_last_length.
  - apply slice_last_all.
  - intros _. apply slice_last_split.
Qed.


(** C3: on a file that holds a log, [get_recent_actions_events(limit)] with
    [limit > 0] returns the first [limit] entries of the log sorted by
    timestamp, latest first, entries of one timestamp in log order (the sort
    is stable), and never the error report; a limit beyond the length returns
    the whole sorted log; and when the timestamps increase along the log, a
    limit of 3 returns the last three entries, latest first. *)
Theorem recent_events_are_sorted_latest_first
    (text : string) (log : list Event) (limit : Z) :
  json_parse text = inr (log_json log) ->
  (0 < limit)%Z ->
  let sorted := sort_desc timestamp log in
  get_recent_actions_events (Some text) limit
    = json_dumps (Some 2%nat) (log_json (firstn (Z.to_nat limit) sorted))
  /\ (forall msg,
        get_recent_actions_events (Some text) limit <> read_failure msg)
  /\ Permutation sorted log
  /\ StronglySorted
       (fun a b => String.leb (timestamp b) (timestamp a) = true) sorted
  /\ (forall t,
        filter (fun e => String.eqb (timestamp e) t) sorted
        = filter (fun e => String.eqb (timestamp e) t) log)
  /\ ((Z.of_nat (List.length log) <= limit)%Z ->
      firstn (Z.to_nat limit) sorted = sorted)
  /\ (increasing timestamp log ->
      get_recent_actions_events (Some text) 3
      = json_dumps (Some 2%nat) (log_json (firstn 3 (rev log)))).
Proof.
  intros Htext Hlimit sorted.
  assert (Hslice : forall k, (0 < k)%Z ->
            Py.slice_to k sorted = firstn (Z.to_nat k) sorted).
  { intros k Hk. unfold Py.slice_to.
    destruct (Z.leb_spec 0 k); [ reflexivity | lia ]. }
  split; [ | split ]; [ | | repeat split ].
  - rewrite (get_recent_actions_events_log text log limit Htext).
    fold sorted. now rewrite Hslice.
  - intros msg. now apply (get_recent_actions_events_no_error text log).
  - apply sort_desc_perm.
  - eapply StronglySorted_weaken; [ | apply sort_desc_sorted ].
    intros a b Hab. apply ltb_false_leb, Hab.
  - intros t. apply sort_desc_stable.
  - intros Hlen. apply firstn_all2. unfold sorted.
    rewrite sort_desc_length. lia.
  - intros Hinc. rewrite (get_recent_actions_events_log text log 3 Htext).
    fold sorted. rewrite Hslice by lia. unfold sorted.
    now rewrite (sort_desc_increasing timestamp log Hinc).
Qed.

(** C4 (amended): on a file that holds a log, [get_recent_actions_events]
    raises no error for [limit <= 0]: it returns the empty sequence for
    [limit = 0], and for [limit < 0] the sorted log without its last [-limit]
    entries (nothing when [-limit] reaches the length of the log). *)
Theorem recent_events_with_a_limit_below_one
    (text : string) (log : list Event) (limit : Z) :
  json_parse text = inr (log_json log) ->
  (limit <= 0)%Z ->
  let sorted := sort_desc timestamp log in
  get_recent_actions_events (Some text) limit
  = json_dumps (Some 2%nat)
      (log_json
         (if (limit =? 0)%Z then []
          else firstn (List.length log - Z.to_nat (- limit)) sorted))
  /\ (forall msg,
        get_recent_actions_events (Some text) limit <> read_failure msg).
Proof.
  intros Htext Hlimit sorted.
  split;
    [ | intros msg; now apply (get_recent_actions_events_no_error text log) ].
  rewrite (get_recent_actions_events_log text log limit Htext).
  fold sorted. unfold Py.slice_to.
  destruct (Z.eqb_spec limit 0) as [-> | Hneg]; [ reflexivity | ].
  destruct (Z.leb_spec 0 limit); [ lia | ].
  unfold sorted at 1. now rewrite sort_desc_length.
Qed.


(** C6 (amended): a POST whose body [json.loads] rejects with
    [JSONDecodeError] is answered 400 with the decode failure in [error] and
    the raw body in [body_received].  When [json.loads] fails in another way
    ([RecursionError] on a body nested too deep, [ValueError] on an integer
    with too many digits), or the body cannot be decoded as text, the answer
    is 400 with the text of the exception in [error] and no [body_received].
    In every case the events file is left as it was. *)
Theorem webhook_rejects_a_body_that_is_not_json
    (now : string) (rq : request) (file : events_file) :
  (forall text msg,
     req_text rq = inr text ->
     json_parse text = inl (JSONDecodeError msg) ->
     handle_webhook now rq file
     = ({| status := 400;
           body := json_dumps None
                     (JObj [("error", JStr ("JSON Decode Error: " ++ msg));
                            ("body_received", JStr text)]) |},
        file))
  /\ (forall text e,
        req_text rq = inr text ->
        json_parse text = inl e ->
        (forall msg, e <> JSONDecodeError msg) ->
        handle_webhook now rq file
        = ({| status := 400;
              body := json_dumps None (JObj [("error", JStr (exc_str e))]) |},
           file))
  /\ (forall msg,
        req_text rq = inl msg ->
        handle_webhook now rq file
        = ({| status := 400;
              body := json_dumps None (JObj [("error", JStr msg)]) |},
           file)).
Proof.
  split; [ | split ].
  - intros text msg Hbody Htext. unfold handle_webhook, json_loads.
    now rewrite Hbody, Htext.
  - intros text e Hbody Htext He. unfold handle_webhook, json_loads.
    rewrite Hbody, Htext. cbn [bind].
    destruct e; try reflexivity. now destruct (He msg).
  - intros msg Hbody. unfold handle_webhook. now rewrite Hbody.
Qed.

(** C7 (the code at the failing input): a second workflow_run event for a
    name whose payload has no run identifier makes the comparison of
    line 249 raise [TypeError], and the exception leaves
    [get_workflow_status]. *)
Theorem missing_run_id_raises (text : string) :
  json_parse text = inr (log_json missing_id_log) ->
  get_workflow_status (Some text) None
  = Raise (TypeError
             "'>' not supported between instances of 'NoneType' and 'int'")
  /\ get_workflow_status (Some text) (Some "deploy")
     = Raise (TypeError
                "'>' not supported between instances of 'NoneType' and 'int'").
Proof.
  intros Htext. split.
  - rewrite (get_workflow_status_log text _ None Htext). reflexivity.
  - rewrite (get_workflow_status_log text _ (Some "deploy") Htext).
    reflexivity.
Qed.

(** C8 (amended): when the events file exists and [json.load] fails on it,
    [get_recent_actions_events] returns the error object with the text of the
    exception, whatever the exception; [get_workflow_status] returns it for
    [JSONDecodeError] and [IOError], the two its [except] clause names, and
    lets any other exception out.  The webhook handler stores nothing on such
    a file: every POST is answered 400 and the file is left as it was, and a
    POST that gets as far as the load is answered with the text of that
    exception. *)
Theorem malformed_events_file_is_reported (text : string) (e : exc) :
  json_parse text = inl e ->
  (forall limit,
     get_recent_actions_events (Some text) limit
     = json_dumps None
         (JObj [("error",
                 JStr ("Failed to read or parse events file: "
                       ++ exc_str e))]))
  /\ (forall workflow_name,
        get_workflow_status (Some text) workflow_name
        = match e with
          | JSONDecodeError _ | OSError _ =>
              Ok (json_dumps None
                    (JObj [("error",
                            JStr ("Failed to read or parse events file: "
                                  ++ exc_str e))]))
          | _ => Raise e
          end)
  /\ (forall now rq,
        snd (handle_webhook now rq (Some text)) = Some text
        /\ status (fst (handle_webhook now rq (Some text))) = 400%Z
        /\ (forall body event,
              req_text rq = inr body ->
              received now rq = Some event ->
              fst (handle_webhook now rq (Some text))
              = match e with
                | JSONDecodeError msg =>
                    json_response
                      (JObj [("error", JStr ("JSON Decode Error: " ++ msg));
                             ("body_received", JStr body)]) 400
                | _ => json_response (JObj [("error", JStr (exc_str e))]) 400
                end)).
Proof.
  intros H. split; [ | split ].
  - intros limit. unfold get_recent_actions_events, json_loads. now rewrite H.
  - intros name. unfold get_workflow_status, json_loads. rewrite H.
    now destruct e.
  - intros now rq.
    destruct (handle_webhook_bad_store now rq text e H) as [Hst Hfile].
    split; [ exact Hfile | split; [ exact Hst | ] ].
    intros body event Hbody Hrecv.
    destruct (received_inv now rq event Hrecv)
      as (body' & data & Hbody' & Hdata & Hprint & Hprint' & _).
    rewrite Hbody in Hbody'. injection Hbody' as <-.
    unfold handle_webhook, json_loads. rewrite Hbody, Hdata. cbn [bind].
    rewrite Hprint. cbn [bind]. rewrite Hprint'. cbn [bind].
    cbn [load_existing_events]. unfold json_loads. rewrite H. cbn [bind].
    now destruct e.
Qed.

(** C9 (amended): an empty result is reported as such and not raised.
    Without an events file, [get_recent_actions_events] returns the empty
    array and [get_workflow_status] a status text; on a log without
    workflow_run events [get_workflow_status] returns "No workflow run events
    found."; and on a log in which the nested workflow name of every
    workflow_run payload can be read, for a name that none of them equals, it
    returns "No workflow runs found for '<name>'.".  A status text is never
    the text of an error report. *)
Theorem empty_results_are_reported :
  (forall limit,
     get_recent_actions_events None limit = json_dumps None (JArr []))
  /\ (forall workflow_name,
        get_workflow_status None workflow_name
        = Ok (json_dumps None
                (JObj [("status",
                        JStr "No events file found. No workflows to report.")])))
  /\ (forall text log workflow_name,
        json_parse text = inr (log_json log) ->
        Forall (fun e => event_type e <> "workflow_run") log ->
        get_workflow_status (Some text) workflow_name
        = Ok (json_dumps None
                (JObj [("status", JStr "No workflow run events found.")])))
  /\ (forall text log name,
        json_parse text = inr (log_json log) ->
        name <> "" ->
        workflow_runs log <> [] ->
        Forall (fun run => exists v, workflow_name_of run = Ok v
                                     /\ Py.eq v (JStr name) = false)
               (workflow_runs log) ->
        get_workflow_status (Some text) (Some name)
        = Ok (json_dumps None
                (JObj [("status",
                        JStr ("No workflow runs found for '" ++ name
                              ++ "'."))])))
  /\ (forall text msg,
        json_dumps None (JObj [("status", JStr text)]) <> read_failure msg).
Proof.
  split; [ | split; [ | split; [ | split ] ] ];
    [ reflexivity | reflexivity | | | apply status_is_no_read_failure ].
  - intros text log workflow_name Htext Hnone.
    rewrite (get_workflow_status_log text log workflow_name Htext).
    now rewrite (workflow_runs_none log Hnone).
  - intros text log name Htext Hname Hruns Hnomatch.
    rewrite (get_workflow_status_log text log (Some name) Htext).
    rewrite report_filtered; auto.
    + now rewrite (named_as_none name (workflow_runs log) Hnomatch).
    + eapply Forall_impl; [ | exact Hnomatch ].
      intros run (v & Hv & _). eauto.
Qed.

(** C10 (amended): on a log with workflow_run events,
    [get_workflow_status] called without a name passes over every
    workflow_run payload whose nested workflow name can be read and is absent
    or falsy (null, empty, 0, false): the loop leaves the dict as it is and
    raises nothing, so the outcome -- the mapping, or the exception another
    payload causes -- is that of the loop over the other payloads.  When a
    mapping is returned its keys are exactly the names of those other
    payloads, each once, in the order of first appearance. *)
Theorem unnamed_workflow_runs_are_skipped (text : string) (log : list Event) :
  json_parse text = inr (log_json log) ->
  workflow_runs log <> [] ->
  let named := filter (fun run => negb (unnamed run)) (workflow_runs log) in
  get_workflow_status (Some text) None
  = (latest_statuses <- record_runs [] named ;;
     Ok (json_dumps (Some 2%nat) (dict_json latest_statuses)))
  /\ (forall run statuses,
        unnamed run = true -> record_run statuses run = Ok statuses)
  /\ (forall latest_statuses,
        record_runs [] named = Ok latest_statuses ->
        exists names,
          mapM workflow_name_of named = Ok names
          /\ forallb Py.truthy names = true
          /\ map fst latest_statuses = once names
          /\ dict_json latest_statuses
             = JObj (combine (map key_str (once names))
                       (map snd latest_statuses))).
Proof.
  intros Htext Hne named. split; [ | split ].
  - rewrite (get_workflow_status_log text log None Htext).
    now apply report_skips.
  - intros run statuses. apply record_run_skips.
  - intros latest Hlatest.
    destruct (record_runs_keys named [] latest) as (names & Hnames & Ht & Hkeys);
      auto.
    + apply Forall_forall. intros run Hrun. apply filter_In in Hrun as [_ Hrun].
      now destruct (unnamed run).
    + change (fold_left add_name names (map fst [])) with (once names)
        in Hkeys.
      exists names. repeat split; auto.
      unfold dict_json. f_equal. rewrite <- Hkeys.
      clear. induction latest as [ | [k v] latest IH ]; auto.
      cbn [map combine fst snd]. now rewrite IH.
Qed.

(** X1: a POST that the handler takes in (its body is read as JSON and
    printed), onto an events file that holds JSON other than an array, is
    answered 400 with the text of the [AttributeError] that [events.append]
    raises, and the file is left as it was. *)
Theorem webhook_on_a_file_that_holds_no_array
    (now : string) (rq : request) (file : events_file) (event : Event)
    (stored : json) :
  received now rq = Some event ->
  load_existing_events file = Ok stored ->
  (forall l, stored <> JArr l) ->
  handle_webhook now rq file
  = ({| status := 400;
        body := json_dumps None
                  (JObj [("error",
                          JStr ("'" ++ type_name stored
                                ++ "' object has no attribute 'append'"))]) |},
     file).
Proof.
  intros Hrecv Hload Hstored.
  destruct (received_inv now rq event Hrecv)
    as (body & data & Hbody & Hdata & Hprint & Hprint' & _).
  unfold handle_webhook, json_loads.
  rewrite Hbody, Hdata. cbn [bind]. rewrite Hprint. cbn [bind].
  rewrite Hprint'. cbn [bind]. rewrite Hload. cbn [bind].
  destruct stored; try reflexivity. now destruct (Hstored items).
Qed.

End Claims.

(** * Further properties *)

(** ** Lines of text *)

Lemma split_lines_length s :
  List.length (split_lines s) = S (count_newlines s).
Proof.
  induction s as [ | c s IH ]; auto. cbn [split_lines count_newlines].
  destruct (Ascii.eqb c newline); cbn [List.length Nat.add]; [ now rewrite IH | ].
  destruct (split_lines s); [ discriminate | exact IH ].
Qed.

Lemma join_split_lines s : join_lines (split_lines s) = s.
Proof.
  induction s as [ | c s IH ]; auto. cbn [split_lines].
  destruct (Ascii.eqb_spec c newline) as [-> | Hc].
  - pose proof (split_lines_length s) as Hlen.
    cbn [join_lines]. destruct (split_lines s) eqn:Hs; [ discriminate | ].
    cbn [String.append]. now rewrite IH.
  - destruct (split_lines s) as [ | line lines ] eqn:Hs.
    + pose proof (split_lines_length s) as Hlen. rewrite Hs in Hlen.
      discriminate.
    + cbn [join_lines] in *. destruct lines; cbn [String.append]; now rewrite IH.
Qed.

Lemma count_newlines_app a b :
  count_newlines (a ++ b) = count_newlines a + count_newlines b.
Proof.
  induction a as [ | c a IH ]; auto. cbn [String.append count_newlines].
  rewrite IH. lia.
Qed.

(** Splitting at a newline splits the list of lines. *)
Lemma split_lines_app a b :
  split_lines (a ++ String newline b) = split_lines a ++ split_lines b.
Proof.
  induction a as [ | c a IH ].
  - cbn [String.append split_lines]. now rewrite Ascii.eqb_refl.
  - cbn [String.append split_lines]. rewrite IH.
    destruct (Ascii.eqb c newline); auto.
    pose proof (split_lines_length a) as Hlen.
    destruct (split_lines a); [ discriminate | reflexivity ].
Qed.

Lemma split_lines_plain s : count_newlines s = 0 -> split_lines s = [s].
Proof.
  induction s as [ | c s IH ]; auto. cbn [count_newlines split_lines].
  destruct (Ascii.eqb c newline); [ discriminate | ].
  intros H. now rewrite (IH H).
Qed.

Lemma split_lines_plain_lines s :
  Forall (fun line => count_newlines line = 0) (split_lines s).
Proof.
  induction s as [ | c s IH ]; [ repeat constructor | ].
  cbn [split_lines]. destruct (Ascii.eqb c newline) eqn:Hc.
  - constructor; auto.
  - destruct (split_lines s) as [ | line lines ]; [ repeat constructor | ].
    + cbn [count_newlines]. now rewrite Hc.
    + inversion IH; subst. constructor; auto.
      cbn [count_newlines]. rewrite Hc. assumption.
Qed.

(** Joining lines that hold no newline and splitting again gives them back. *)
Lemma split_join_lines lines :
  lines <> [] -> Forall (fun line => count_newlines line = 0) lines ->
  split_lines (join_lines lines) = lines.
Proof.
  induction lines as [ | line lines IH ]; [ congruence | intros _ Hall ].
  inversion Hall as [ | ? ? Hline Hrest ]; subst.
  cbn [join_lines]. destruct lines as [ | line' lines ].
  - now apply split_lines_plain.
  - rewrite split_lines_app, (split_lines_plain line Hline).
    cbn [app]. f_equal. apply IH; [ discriminate | assumption ].
Qed.

Lemma str_int_plain z : count_newlines (Py.str_int z) = 0.
Proof.
  assert (Hu : forall u, count_newlines (NilEmpty.string_of_uint u) = 0)
    by (induction u; cbn; auto).
  destruct (ReferenceFacts.str_int_cases z)
    as [(u & _ & -> & _) | (u & _ & -> & _)]; cbn; now rewrite Hu.
Qed.

(** ** [analyze_file_changes] *)

Section AnalysisFacts.

Context {R : Runtime}.

Lemma analyze_with_diff run base_branch max_diff_lines :
  returncode (run (files_command base_branch)) = 0%Z ->
  analyze_file_changes (started run) base_branch true max_diff_lines
  = let diff_stdout := stdout (run (diff_command base_branch)) in
    json_dumps (Some 2%nat)
      (analysis run base_branch
         (fst (shown_diff diff_stdout max_diff_lines))
         (snd (shown_diff diff_stdout max_diff_lines))
         (Z.of_nat (List.length (split_lines diff_stdout)))).
Proof.
  intros Hok. unfold analyze_file_changes, started. cbn [bind].
  fold (files_command base_branch) (stat_command base_branch)
       (diff_command base_branch) (log_command base_branch).
  rewrite Hok. cbn [Z.eqb negb bind]. cbv zeta.
  destruct (shown_diff _ _). reflexivity.
Qed.

Lemma shown_diff_cut diff_stdout max_diff_lines :
  (max_diff_lines < Z.of_nat (List.length (split_lines diff_stdout)))%Z ->
  let kept := Py.slice_to max_diff_lines (split_lines diff_stdout) in
  snd (shown_diff diff_stdout max_diff_lines) = true
  /\ split_lines (fst (shown_diff diff_stdout max_diff_lines))
     = split_lines (join_lines kept) ++ EmptyString
       :: truncation_notice max_diff_lines
            (List.length (split_lines diff_stdout)).
Proof.
  intros Hlt kept. unfold shown_diff. cbv zeta.
  apply Z.ltb_lt in Hlt. rewrite Hlt. cbn [fst snd]. split; auto.
  fold kept.
  change (String newline (String newline ?b) ++ String newline ?c)%string
    with (EmptyString ++ String newline (EmptyString
            ++ String newline (b ++ String newline c)))%string.
  change (?a ++ (EmptyString ++ String newline ?b))%string
    with (a ++ String newline b)%string.
  rewrite !split_lines_app. unfold truncation_notice.
  rewrite (split_lines_plain "... Use max_diff_lines parameter to see more ...")
    by reflexivity.
  rewrite (split_lines_plain ("... Output truncated. Showing " ++ _));
    [ reflexivity | ].
  rewrite !count_newlines_app, !str_int_plain. reflexivity.
Qed.

(** X2: in a repository where every command runs ([started]), when the
    lines of the diff do not exceed [max_diff_lines], the analysis holds the
    output of [git diff] unchanged and is not marked as truncated; the lines
    are counted as one more than the newline characters of that output (an
    empty diff counts one line). *)
Theorem diff_within_the_limit_is_returned_whole
    run base_branch max_diff_lines :
  let diff_stdout := stdout (run (diff_command base_branch)) in
  returncode (run (files_command base_branch)) = 0%Z ->
  (Z.of_nat (count_newlines diff_stdout) < max_diff_lines)%Z ->
  analyze_file_changes (started run) base_branch true max_diff_lines
  = json_dumps (Some 2%nat)
      (analysis run base_branch diff_stdout false
         (Z.of_nat (count_newlines diff_stdout) + 1)).
Proof.
  intros diff_stdout Hok Hfit. rewrite (analyze_with_diff _ _ _ Hok).
  cbv zeta. fold diff_stdout. unfold shown_diff. cbv zeta.
  rewrite split_lines_length.
  destruct (Z.ltb_spec max_diff_lines (Z.of_nat (S (count_newlines diff_stdout))));
    [ lia | ].
  cbn [fst snd]. do 3 f_equal. lia.
Qed.

(** X3: in a repository where every command runs, when the diff has more
    lines than [max_diff_lines >= 1], the analysis is marked as truncated, reports the full number of lines, and
    the diff it shows is the first [max_diff_lines] lines of the output of
    [git diff], then an empty line and the two lines of the notice: three
    lines more than the limit asked for. *)
Theorem diff_past_the_limit_is_cut run base_branch max_diff_lines :
  let diff_lines := split_lines (stdout (run (diff_command base_branch))) in
  returncode (run (files_command base_branch)) = 0%Z ->
  (1 <= max_diff_lines < Z.of_nat (List.length diff_lines))%Z ->
  exists shown,
    analyze_file_changes (started run) base_branch true max_diff_lines
    = json_dumps (Some 2%nat)
        (analysis run base_branch shown true
           (Z.of_nat (List.length diff_lines)))
    /\ split_lines shown
       = firstn (Z.to_nat max_diff_lines) diff_lines ++ EmptyString
         :: truncation_notice max_diff_lines (List.length diff_lines)
    /\ Z.of_nat (List.length (split_lines shown)) = (max_diff_lines + 3)%Z.
Proof.
  intros diff_lines Hok [Hpos Hlt]. rewrite (analyze_with_diff _ _ _ Hok).
  cbv zeta. fold diff_lines.
  destruct (shown_diff_cut (stdout (run (diff_command base_branch)))
              max_diff_lines Hlt) as [Hcut Hshown].
  fold diff_lines in Hshown.
  exists (fst (shown_diff (stdout (run (diff_command base_branch)))
                 max_diff_lines)).
  rewrite Hcut. split; [ reflexivity | ].
  assert (Hkept : split_lines (join_lines (Py.slice_to max_diff_lines diff_lines))
                  = firstn (Z.to_nat max_diff_lines) diff_lines).
  { unfold Py.slice_to. destruct (Z.leb_spec 0 max_diff_lines); [ | lia ].
    apply split_join_lines.
    - destruct diff_lines; [ cbn in Hlt; lia | ].
      destruct (Z.to_nat max_diff_lines) eqn:Hn; [ lia | discriminate ].
    - apply Forall_forall. intros line Hin.
      pose proof (split_lines_plain_lines (stdout (run (diff_command base_branch))))
        as Hall.
      rewrite Forall_forall in Hall. apply Hall.
      fold diff_lines. revert Hin. apply firstn_incl. }
  rewrite Hshown, Hkept. split; [ reflexivity | ].
  rewrite length_app, length_firstn. cbn [List.length truncation_notice]. lia.
Qed.

(** X4: in a repository where every command runs, with
    [max_diff_lines <= 0] every diff, the empty one included, is marked as
    truncated: nothing is returned whole.  For [0] no line of the
    diff is shown; a negative limit counts from the end, as a slice does, and
    leaves out the last [-max_diff_lines] lines.  What is shown is then
    followed by an empty line and the notice. *)
Theorem diff_limit_below_one_always_cuts run base_branch max_diff_lines :
  let diff_lines := split_lines (stdout (run (diff_command base_branch))) in
  let kept :=
    if (max_diff_lines =? 0)%Z then []
    else firstn (List.length diff_lines - Z.to_nat (- max_diff_lines))
           diff_lines in
  returncode (run (files_command base_branch)) = 0%Z ->
  (max_diff_lines <= 0)%Z ->
  exists shown,
    analyze_file_changes (started run) base_branch true max_diff_lines
    = json_dumps (Some 2%nat)
        (analysis run base_branch shown true
           (Z.of_nat (List.length diff_lines)))
    /\ (1 <= List.length diff_lines)%nat
    /\ split_lines shown
       = match kept with [] => [EmptyString] | _ :: _ => kept end
         ++ EmptyString
         :: truncation_notice max_diff_lines (List.length diff_lines).
Proof.
  intros diff_lines kept Hok Hmax. rewrite (analyze_with_diff _ _ _ Hok).
  cbv zeta. fold diff_lines.
  assert (Hlen : (1 <= List.length diff_lines)%nat)
    by (unfold diff_lines; rewrite split_lines_length; lia).
  assert (Hlt : (max_diff_lines < Z.of_nat (List.length diff_lines))%Z) by lia.
  destruct (shown_diff_cut (stdout (run (diff_command base_branch)))
              max_diff_lines Hlt) as [Hcut Hshown].
  fold diff_lines in Hshown.
  exists (fst (shown_diff (stdout (run (diff_command base_branch)))
                 max_diff_lines)).
  rewrite Hcut. split; [ reflexivity | split; [ assumption | ] ].
  rewrite Hshown. f_equal.
  assert (Hslice : Py.slice_to max_diff_lines diff_lines = kept).
  { unfold Py.slice_to, kept. destruct (Z.eqb_spec max_diff_lines 0) as [-> | ].
    - reflexivity.
    - destruct (Z.leb_spec 0 max_diff_lines); [ lia | reflexivity ]. }
  rewrite Hslice.
  assert (Hplain : Forall (fun line => count_newlines line = 0) kept).
  { apply Forall_forall. intros line Hin.
    pose proof (split_lines_plain_lines (stdout (run (diff_command base_branch))))
      as Hall.
    rewrite Forall_forall in Hall. apply Hall. fold diff_lines.
    unfold kept in Hin. destruct (max_diff_lines =? 0)%Z; [ destruct Hin | ].
    revert Hin. apply firstn_incl. }
  destruct kept as [ | line lines ] eqn:Hkept; [ reflexivity | ].
  apply split_join_lines; [ discriminate | assumption ].
Qed.

Lemma analysis_wf run base_branch diff truncated total :
  wf (analysis run base_branch diff truncated total) = true.
Proof. reflexivity. Qed.

Lemma analyze_file_changes_ok run base_branch include_diff max_diff_lines :
  returncode (run (files_command base_branch)) = 0%Z ->
  exists diff truncated total,
    analyze_file_changes (started run) base_branch include_diff max_diff_lines
    = json_dumps (Some 2%nat)
        (analysis run base_branch diff truncated total).
Proof.
  intros Hok. destruct include_diff.
  - rewrite (analyze_with_diff _ _ _ Hok). cbv zeta.
    do 3 eexists. reflexivity.
  - unfold analyze_file_changes, started. cbn [bind].
    fold (files_command base_branch) (stat_command base_branch)
         (log_command base_branch).
    rewrite Hok. cbn [Z.eqb negb bind]. cbv zeta. do 3 eexists. reflexivity.
Qed.

(** X5: without [include_diff] the tool does not depend on [git diff] of
    the branch at all, nor on [max_diff_lines]: two repositories that answer
    the three other commands alike get the same analysis. *)
Theorem analysis_without_the_diff
    (run run' : subprocess) base_branch max_diff_lines max_diff_lines' :
  (forall args, args <> diff_command base_branch -> run' args = run args) ->
  analyze_file_changes run' base_branch false max_diff_lines'
  = analyze_file_changes run base_branch false max_diff_lines.
Proof.
  intros Hsame. unfold analyze_file_changes.
  fold (files_command base_branch) (stat_command base_branch)
       (log_command base_branch).
  rewrite !(Hsame (files_command base_branch)),
          !(Hsame (stat_command base_branch)),
          !(Hsame (log_command base_branch)); try discriminate.
  reflexivity.
Qed.

Lemma analyze_runs_through run base_branch include_diff max_diff_lines :
  runs_through run base_branch include_diff ->
  exists document,
    wf document = true
    /\ (forall msg, document <> JObj [("error", JStr msg)])
    /\ analyze_file_changes run base_branch include_diff max_diff_lines
       = json_dumps (Some 2%nat) document.
Proof.
  intros ((files_result & Hfiles & Hok) & (stat_result & Hstat) & Hdiff
          & (commits_result & Hlog)).
  unfold analyze_file_changes.
  fold (files_command base_branch) (stat_command base_branch)
       (diff_command base_branch) (log_command base_branch).
  rewrite Hfiles. cbn [bind]. rewrite Hok. cbn [Z.eqb negb].
  rewrite Hstat. cbn [bind].
  destruct include_diff.
  - destruct (Hdiff eq_refl) as (diff_result & Hdiff'). rewrite Hdiff'.
    cbn [bind]. destruct (shown_diff _ _). rewrite Hlog. cbn [bind].
    eexists. split; [ | split; [ | reflexivity ] ];
      [ reflexivity | discriminate ].
  - cbn [bind]. rewrite Hlog. cbn [bind].
    eexists. split; [ | split; [ | reflexivity ] ];
      [ reflexivity | discriminate ].
Qed.

(** What the tool answers once the first command has exited with 0. *)
Lemma analyze_after_the_first run base_branch include_diff max_diff_lines
    files_result :
  run (files_command base_branch) = Ok files_result ->
  returncode files_result = 0%Z ->
  (forall e,
     run (stat_command base_branch) = Raise e ->
     analyze_file_changes run base_branch include_diff max_diff_lines
     = error_report (exc_str e))
  /\ (forall stat_result e,
        run (stat_command base_branch) = Ok stat_result ->
        include_diff = true ->
        run (diff_command base_branch) = Raise e ->
        analyze_file_changes run base_branch include_diff max_diff_lines
        = error_report (exc_str e))
  /\ (forall stat_result e,
        run (stat_command base_branch) = Ok stat_result ->
        (include_diff = true ->
         exists diff_result,
           run (diff_command base_branch) = Ok diff_result) ->
        run (log_command base_branch) = Raise e ->
        analyze_file_changes run base_branch include_diff max_diff_lines
        = error_report (exc_str e)).
Proof.
  intros Hfiles Hok.
  unfold analyze_file_changes.
  fold (files_command base_branch) (stat_command base_branch)
       (diff_command base_branch) (log_command base_branch).
  rewrite Hfiles. cbn [bind]. rewrite Hok. cbn [Z.eqb negb].
  split; [ | split ].
  - intros e Hstat. now rewrite Hstat.
  - intros stat_result e Hstat -> Hdiff. now rewrite Hstat, Hdiff.
  - intros stat_result e Hstat Hdiff Hlog. rewrite Hstat. cbn [bind].
    destruct include_diff.
    + destruct (Hdiff eq_refl) as (diff_result & Hdiff'). rewrite Hdiff'.
      cbn [bind]. destruct (shown_diff _ _). now rewrite Hlog.
    + cbn [bind]. now rewrite Hlog.
Qed.

(** X6: the tool answers with an error report exactly when one of the
    commands it runs cannot be run ([subprocess.run] raises) or the first
    one, [git diff --name-status], exits with a code other than 0.  For the
    exit code the report is "Git error: " and what that command wrote to its
    standard error; for a command that cannot be run it is the text of the
    exception, the first one met in the order files, stat, diff (with
    [include_diff]), log. *)
Theorem git_error_is_reported_for_the_first_command
    (run : subprocess) base_branch include_diff max_diff_lines :
  let answer :=
    analyze_file_changes run base_branch include_diff max_diff_lines in
  ((exists msg, answer = error_report msg)
   <-> ~ runs_through run base_branch include_diff)
  /\ (forall files_result,
        run (files_command base_branch) = Ok files_result ->
        returncode files_result <> 0%Z ->
        answer = error_report ("Git error: " ++ stderr files_result))
  /\ (forall e,
        run (files_command base_branch) = Raise e ->
        answer = error_report (exc_str e))
  /\ (forall files_result,
        run (files_command base_branch) = Ok files_result ->
        returncode files_result = 0%Z ->
        (forall e,
           run (stat_command base_branch) = Raise e ->
           answer = error_report (exc_str e))
        /\ (forall stat_result e,
              run (stat_command base_branch) = Ok stat_result ->
              include_diff = true ->
              run (diff_command base_branch) = Raise e ->
              answer = error_report (exc_str e))
        /\ (forall stat_result e,
              run (stat_command base_branch) = Ok stat_result ->
              (include_diff = true ->
               exists diff_result,
                 run (diff_command base_branch) = Ok diff_result) ->
              run (log_command base_branch) = Raise e ->
              answer = error_report (exc_str e))).
Proof.
  intros answer.
  assert (Hcode : forall files_result,
             run (files_command base_branch) = Ok files_result ->
             returncode files_result <> 0%Z ->
             answer = error_report ("Git error: " ++ stderr files_result)).
  { intros files_result Hfiles Hrc. unfold answer, analyze_file_changes.
    fold (files_command base_branch). rewrite Hfiles. cbn [bind].
    destruct (Z.eqb_spec (returncode files_result) 0); [ contradiction | ].
    reflexivity. }
  assert (Hfirst : forall e,
             run (files_command base_branch) = Raise e ->
             answer = error_report (exc_str e)).
  { intros e Hfiles. unfold answer, analyze_file_changes.
    fold (files_command base_branch). now rewrite Hfiles. }
  pose proof (analyze_after_the_first run base_branch include_diff
                max_diff_lines) as Hlater.
  fold answer in Hlater.
  split; [ | split; [ exact Hcode | split; [ exact Hfirst | exact Hlater ] ] ].
  split.
  - intros [msg Hmsg] Hthrough.
    destruct (analyze_runs_through run base_branch include_diff max_diff_lines
                Hthrough) as (document & Hwf & Hdoc & Heq).
    fold answer in Heq. rewrite Heq in Hmsg. revert Hmsg.
    apply json_dumps_distinct; auto.
  - intros Hnot.
    destruct (run (files_command base_branch)) as [ files_result | e ] eqn:Hfiles;
      [ | eexists; now apply Hfirst ].
    destruct (Z.eq_dec (returncode files_result) 0) as [Hok | Hrc];
      [ | eexists; now apply (Hcode files_result) ].
    destruct (Hlater files_result eq_refl Hok) as (Hstat & Hdiff & Hlog).
    destruct (run (stat_command base_branch)) as [ stat_result | e ] eqn:Hstat';
      [ | eexists; now apply Hstat ].
    destruct include_diff.
    + destruct (run (diff_command base_branch)) as [ diff_result | e ] eqn:Hdiff';
        [ | eexists; now apply (Hdiff stat_result) ].
      destruct (run (log_command base_branch)) as [ commits_result | e ] eqn:Hlog';
        [ | eexists; apply (Hlog stat_result); eauto ].
      exfalso. apply Hnot. unfold runs_through.
      rewrite Hfiles, Hstat', Hdiff', Hlog'. repeat split; eauto.
    + destruct (run (log_command base_branch)) as [ commits_result | e ] eqn:Hlog';
        [ | eexists; apply (Hlog stat_result); auto; discriminate ].
      exfalso. apply Hnot. unfold runs_through.
      rewrite Hfiles, Hstat', Hlog'. repeat split; eauto. discriminate.
Qed.

(** X7: only the first command is checked.  In a repository where every
    command runs, once the first has succeeded, the exit
    codes of [git diff --stat], [git diff] and [git log], and what they write
    to standard error, have no effect: the analysis is built from their
    standard output alone, and a failure among them is not reported. *)
Theorem later_git_failures_are_not_reported
    run run' base_branch include_diff max_diff_lines :
  returncode (run (files_command base_branch)) = 0%Z ->
  returncode (run' (files_command base_branch)) = 0%Z ->
  (forall args, stdout (run' args) = stdout (run args)) ->
  analyze_file_changes (started run') base_branch include_diff max_diff_lines
  = analyze_file_changes (started run) base_branch include_diff max_diff_lines.
Proof.
  intros Hok Hok' Hout. unfold analyze_file_changes, started. cbn [bind].
  fold (files_command base_branch) (stat_command base_branch)
       (diff_command base_branch) (log_command base_branch).
  rewrite Hok, Hok'. cbn [Z.eqb negb]. rewrite !Hout.
  destruct include_diff; cbn [bind]; rewrite ?Hout; reflexivity.
Qed.

End AnalysisFacts.

(** ** The pull request templates *)

Section TemplateFacts.

Context {R : Runtime}.

Lemma read_templates_all dir content table :
  (forall filename, In filename (map fst table) ->
                    dir filename = Some (content filename)) ->
  read_templates dir table = Returned (templates_of content table).
Proof.
  induction table as [ | [filename template_type] table IH ]; intros Hdir; auto.
  cbn [read_templates]. rewrite (Hdir filename) by now left.
  rewrite IH; [ reflexivity | ].
  intros g Hg. apply Hdir. now right.
Qed.

Lemma read_templates_missing dir table before filename template_type after :
  table = before ++ (filename, template_type) :: after ->
  (forall present, In present (map fst before) -> dir present <> None) ->
  dir filename = None ->
  read_templates dir table = FileNotFoundError filename.
Proof.
  intros -> Hbefore Hmissing.
  induction before as [ | [present present_type] before IH ].
  - cbn [app read_templates]. now rewrite Hmissing.
  - cbn [app read_templates].
    destruct (dir present) eqn:Hpresent.
    + rewrite IH; [ reflexivity | ].
      intros g Hg. apply Hbefore. now right.
    + exfalso. apply (Hbefore present); [ now left | assumption ].
Qed.

Lemma templates_of_wf content table :
  wf (JArr (templates_of content table)) = true.
Proof.
  cbn [wf]. induction table as [ | entry table IH ]; auto.
Qed.

Lemma table_get_in table key default :
  table_get table key default = default
  \/ In (table_get table key default) (map snd table).
Proof.
  induction table as [ | [k v] table IH ]; [ now left | ].
  cbn [table_get map snd]. destruct (String.eqb key k).
  - right. now left.
  - destruct IH as [IH | IH]; [ now left | right; now right ].
Qed.

(** Every file the mapping can name is one of the seven of the table. *)
Lemma template_file_listed key :
  In (table_get TYPE_MAPPING key "feature.md") (map fst DEFAULT_TEMPLATES).
Proof.
  destruct (table_get_in TYPE_MAPPING key "feature.md") as [-> | Hin].
  - cbn. tauto.
  - revert Hin. generalize (table_get TYPE_MAPPING key "feature.md").
    intros f Hin. cbn in Hin. cbn.
    repeat (destruct Hin as [<- | Hin]; [ tauto | ]). destruct Hin.
Qed.

Lemma first_template_listed content table template_file default :
  In template_file (map fst table) ->
  first_template (templates_of content table) template_file default
  = Ok (template template_file (table_get table template_file "")
          (content template_file)).
Proof.
  induction table as [ | [filename template_type] table IH ];
    [ intros [] | intros Hin ].
  cbn [templates_of map first_template fst snd template Py.item Py.lookup
       String.eqb Ascii.eqb Bool.eqb bind Py.eq table_get].
  rewrite String.eqb_sym.
  destruct (String.eqb_spec template_file filename) as [-> | Hneq].
  - reflexivity.
  - apply IH. destruct Hin as [Heq | Hin]; [ | exact Hin ].
    cbn in Heq. congruence.
Qed.

(** X8: when the seven files of [DEFAULT_TEMPLATES] can be read, the tool
    returns the JSON text of a list with one entry per file, in the order of
    the table, each with the file's name, its type and the text read, and
    that text loads back to the list.  No file of another name is looked
    at. *)
Theorem pr_templates_list_the_default_files dir content :
  (forall filename, In filename (map fst DEFAULT_TEMPLATES) ->
                    dir filename = Some (content filename)) ->
  let templates := templates_of content DEFAULT_TEMPLATES in
  get_pr_templates dir = Returned (json_dumps (Some 2%nat) (JArr templates))
  /\ json_loads (json_dumps (Some 2%nat) (JArr templates)) = Ok (JArr templates)
  /\ List.length templates = 7%nat.
Proof.
  intros Hdir templates. unfold get_pr_templates.
  rewrite (read_templates_all dir content _ Hdir). cbn [and_then].
  split; [ reflexivity | ]. split; [ | reflexivity ].
  apply json_loads_dumps, templates_of_wf.
Qed.

(** X9: when the seven files can be read, the template recommended is the
    one [TYPE_MAPPING] gives for the change type in lower case, and
    [feature.md] for a type the mapping does not know: the fall-back on the
    first template of the list is never taken.  The answer carries that
    template's entry and its text. *)
Theorem suggested_template_follows_the_mapping
    dir content changes_summary change_type :
  let template_file :=
    table_get TYPE_MAPPING (str_lower change_type) "feature.md" in
  let selected :=
    template template_file (table_get DEFAULT_TEMPLATES template_file "")
      (content template_file) in
  (forall filename, In filename (map fst DEFAULT_TEMPLATES) ->
                    dir filename = Some (content filename)) ->
  In template_file (map fst DEFAULT_TEMPLATES)
  /\ suggest_template dir changes_summary change_type
     = Returned
         (json_dumps (Some 2%nat)
            (JObj [("recommended_template", selected);
                   ("reasoning",
                    JStr ("Based on your analysis: '" ++ changes_summary
                          ++ "', this appears to be a " ++ change_type
                          ++ " change."));
                   ("template_content", JStr (content template_file));
                   ("usage_hint",
                    JStr "AI Agent can help you fill out this template based on the specific changes in your PR.")])).
Proof.
  intros template_file selected Hdir.
  pose proof (template_file_listed (str_lower change_type)) as Hlisted.
  fold template_file in Hlisted. split; [ exact Hlisted | ].
  unfold suggest_template, get_pr_templates.
  rewrite (read_templates_all dir content _ Hdir). cbn [and_then].
  rewrite (json_loads_dumps _ _ (templates_of_wf content DEFAULT_TEMPLATES)).
  cbn [of_result and_then Py.iter]. fold template_file.
  change (first_item (JArr (templates_of content DEFAULT_TEMPLATES)))
    with (Returned (A := json)
            (template "bug.md" "Bug Fix" (content "bug.md"))).
  cbn [and_then].
  rewrite (first_template_listed content _ _ _ Hlisted).
  reflexivity.
Qed.

(** X10: both tools read every file of [DEFAULT_TEMPLATES], in the order of
    the table, before anything else: when one of them is missing, the first
    such file stops [get_pr_templates] with [FileNotFoundError], and
    [suggest_template] with it whatever the change type, also one whose own
    template is there. *)
Theorem missing_template_file_stops_both_tools
    dir before filename template_type after changes_summary change_type :
  DEFAULT_TEMPLATES = before ++ (filename, template_type) :: after ->
  (forall present, In present (map fst before) -> dir present <> None) ->
  dir filename = None ->
  get_pr_templates dir = FileNotFoundError filename
  /\ suggest_template dir changes_summary change_type
     = FileNotFoundError filename.
Proof.
  intros Htable Hbefore Hmissing.
  unfold suggest_template, get_pr_templates.
  rewrite (read_templates_missing dir _ _ _ _ _ Htable Hbefore Hmissing).
  split; reflexivity.
Qed.

End TemplateFacts.

(** ** The webhook and the tools that read its file, together *)

Section EventFacts.

Context {R : Runtime}.

Lemma handle_webhook_log now rq file log e :
  load_existing_events file = Ok (log_json log) ->
  received now rq = Some e ->
  exists text,
    handle_webhook now rq file = (acknowledged, Some text)
    /\ json_parse text = inr (log_json (Py.slice_last 100 (log ++ [e]))).
Proof.
  intros Hload Hrecv.
  destruct (received_inv now rq e Hrecv)
    as (body & data & Hbody & Hdata & Hprint & Hprint' & ->).
  destruct (handle_webhook_stores now rq file (map event_json log) body data
              Hbody Hdata Hprint Hprint' Hload) as [Hstep Hread].
  eexists. split; [ exact Hstep | ].
  cbn [load_existing_events] in Hread. unfold json_loads in Hread.
  destruct (json_parse (json_dumps _ _)) as [ | v ]; [ discriminate | ].
  injection Hread as ->.
  f_equal. unfold log_json. f_equal.
  rewrite <- slice_last_map, map_app. reflexivity.
Qed.

Lemma deliver_mixed posts : forall file old,
  load_existing_events file = Ok (log_json (Py.slice_last 100 old)) ->
  load_existing_events (snd (deliver posts file))
    = Ok (log_json (Py.slice_last 100 (old ++ accepted posts)))
  /\ map status (fst (deliver posts file)) = map due_status posts
  /\ (accepted posts = [] -> snd (deliver posts file) = file).
Proof.
  induction posts as [ | [now rq] posts IH ]; intros file old Hload.
  - cbn [deliver accepted flat_map fst snd map]. rewrite app_nil_r. auto.
  - cbn [deliver accepted flat_map fst snd map]. fold (accepted posts).
    change (due_status (now, rq))
      with (match received now rq with Some _ => 200%Z | None => 400%Z end).
    destruct (received now rq) as [ e | ] eqn:Hrecv.
    + destruct (handle_webhook_log now rq file _ e Hload Hrecv)
        as (text & Hstep & Htext).
      rewrite Hstep.
      specialize (IH (Some text) (old ++ [e])).
      destruct (deliver posts (Some text)) as [resps file'] eqn:Hrun.
      cbn [fst snd map] in *.
      destruct IH as (IH1 & IH2 & _).
      { cbn [load_existing_events]. unfold json_loads. rewrite Htext.
        f_equal. f_equal. apply slice_last_snoc. lia. }
      rewrite <- app_assoc in IH1. cbn [app] in IH1.
      split; [ exact IH1 | split; [ now rewrite IH2 | discriminate ] ].
    + destruct (handle_webhook_refuses now rq file Hrecv) as [Hst Hfile].
      destruct (handle_webhook now rq file) as [resp file0].
      cbn [fst snd] in Hst, Hfile. subst file0.
      specialize (IH file old Hload).
      destruct (deliver posts file) as [resps file'] eqn:Hrun.
      cbn [fst snd map app] in *. destruct IH as (IH1 & IH2 & IH3).
      split; [ exact IH1 | split; [ now rewrite Hst, IH2 | exact IH3 ] ].
Qed.

Lemma sort_desc_newest {A} (key : A -> string) l x :
  Forall (fun y => String.ltb (key y) (key x) = true) l ->
  sort_desc key (l ++ [x]) = x :: sort_desc key l.
Proof.
  induction 1 as [ | y l Hy _ IH ]; auto.
  cbn [app sort_desc fold_right]. fold (sort_desc key (l ++ [x])).
  rewrite IH. cbn [insert_desc]. now rewrite Hy.
Qed.

Lemma slice_last_succ_snoc {A} k (l : list A) x :
  Py.slice_last (S k) (l ++ [x]) = Py.slice_last k l ++ [x].
Proof.
  unfold Py.slice_last. rewrite length_app. cbn [List.length].
  replace (List.length l + 1 - S k)%nat with (List.length l - k)%nat by lia.
  rewrite skipn_app.
  replace (List.length l - k - List.length l)%nat with 0%nat by lia.
  reflexivity.
Qed.

Lemma slice_last_incl {A} k (l : list A) : incl (Py.slice_last k l) l.
Proof.
  intros x Hx. unfold Py.slice_last in Hx.
  rewrite <- (firstn_skipn (List.length l - k) l). apply in_or_app. now right.
Qed.

Lemma workflow_runs_app log log' :
  workflow_runs (log ++ log') = workflow_runs log ++ workflow_runs log'.
Proof. unfold workflow_runs. now rewrite filter_app, map_app. Qed.

(** X11: for any sequence of POSTs handled from an absent events file,
    whatever their bodies: each POST that the handler takes in (the body is
    read as JSON and printed, see [received]) is answered 200 and each other
    one 400; the POSTs that are refused leave no trace, the file afterwards
    holds the last 100 events of the POSTs that were taken in, in arrival
    order, and no file is created while none is. *)
Theorem refused_posts_leave_no_trace (posts : list (string * request)) :
  load_existing_events (snd (deliver posts None))
  = Ok (log_json (Py.slice_last 100 (accepted posts)))
  /\ map status (fst (deliver posts None)) = map due_status posts
  /\ (accepted posts = [] <-> snd (deliver posts None) = None).
Proof.
  destruct (deliver_mixed posts None [] eq_refl) as (Hload & Hst & Hnone).
  split; [ exact Hload | split; [ exact Hst | split; [ exact Hnone | ] ] ].
  intros Hfile. rewrite Hfile in Hload. cbn [load_existing_events app] in Hload.
  injection Hload as Hload. symmetry in Hload.
  apply map_eq_nil in Hload. unfold Py.slice_last in Hload.
  destruct (accepted posts) as [ | e l ] eqn:Hacc; auto.
  exfalso. assert (Hlen : List.length (skipn (List.length (e :: l) - 100) (e :: l)) = 0%nat)
    by now rewrite Hload.
  rewrite length_skipn in Hlen. cbn [List.length] in Hlen. lia.
Qed.

(** X12: a POST that is accepted shows first in the recent events.  When
    the arrival time is later than the timestamp of every event in the file,
    [get_recent_actions_events] with a limit of at least 1, called after the
    POST, lists the new event first, and after it the latest of the 99 events
    the file kept. *)
Theorem posted_event_is_the_most_recent
    (now : string) (rq : request) (file : events_file) (log : list Event)
    (e : Event) (limit : Z) :
  load_existing_events file = Ok (log_json log) ->
  received now rq = Some e ->
  Forall (fun old => String.ltb (timestamp old) now = true) log ->
  (1 <= limit)%Z ->
  get_recent_actions_events (snd (handle_webhook now rq file)) limit
  = json_dumps (Some 2%nat)
      (log_json
         (e :: firstn (Z.to_nat limit - 1)
                 (sort_desc timestamp (Py.slice_last 99 log)))).
Proof.
  intros Hload Hrecv Hlater Hlimit.
  destruct (handle_webhook_log now rq file log e Hload Hrecv)
    as (text & Hstep & Htext).
  rewrite Hstep. cbn [snd].
  rewrite (get_recent_actions_events_log text _ limit Htext).
  rewrite slice_last_succ_snoc.
  assert (Hnow : timestamp e = now).
  { destruct (received_inv now rq e Hrecv) as (? & ? & _ & _ & _ & _ & ->).
    reflexivity. }
  rewrite sort_desc_newest.
  - unfold Py.slice_to. destruct (Z.leb_spec 0 limit); [ | lia ].
    destruct (Z.to_nat limit) as [ | n ] eqn:Hn; [ lia | ].
    replace (S n - 1)%nat with n by lia. reflexivity.
  - rewrite Hnow. apply Forall_forall. intros old Hold.
    rewrite Forall_forall in Hlater. apply Hlater.
    revert Hold. apply slice_last_incl.
Qed.

(** X13: an event of another type does not change the workflow status.
    After a POST whose [X-GitHub-Event] is not [workflow_run], accepted onto
    a file of fewer than 100 events, [get_workflow_status] answers as it did
    before, with or without a name. *)
Theorem other_events_leave_the_workflow_status
    (now : string) (rq : request) (text : string) (log : list Event)
    (e : Event) (workflow_name : option string) :
  json_parse text = inr (log_json log) ->
  received now rq = Some e ->
  event_type e <> "workflow_run" ->
  (List.length log < 100)%nat ->
  get_workflow_status (snd (handle_webhook now rq (Some text))) workflow_name
  = get_workflow_status (Some text) workflow_name.
Proof.
  intros Htext Hrecv Htype Hlen.
  assert (Hload : load_existing_events (Some text) = Ok (log_json log)).
  { cbn [load_existing_events]. unfold json_loads. now rewrite Htext. }
  destruct (handle_webhook_log now rq (Some text) log e Hload Hrecv)
    as (text' & Hstep & Htext').
  rewrite Hstep. cbn [snd].
  rewrite (get_workflow_status_log text' _ workflow_name Htext').
  rewrite (get_workflow_status_log text log workflow_name Htext).
  rewrite slice_last_all by (rewrite length_app; cbn [List.length]; lia).
  rewrite workflow_runs_app. unfold workflow_runs at 2. cbn [filter].
  destruct (String.eqb_spec (event_type e) "workflow_run");
    [ contradiction | ].
  cbn [map]. now rewrite app_nil_r.
Qed.

(** *** Files that hold something else than a log *)

Lemma get_no_dict x k default :
  is_dict x = false ->
  Py.get x k default = Raise (AttributeError (type_name x) "get").
Proof. destruct x; try discriminate; reflexivity. Qed.

Lemma timestamps_stop_at_no_dict dicts x rest :
  Forall (fun ev => is_dict ev = true) dicts ->
  is_dict x = false ->
  mapM (fun ev => Py.get ev "timestamp" (JStr "")) (dicts ++ x :: rest)
  = Raise (AttributeError (type_name x) "get").
Proof.
  intros Hdicts Hx. induction Hdicts as [ | ev dicts Hev _ IH ].
  - cbn [app mapM]. now rewrite (get_no_dict x _ _ Hx).
  - cbn [app mapM]. rewrite IH. destruct ev; try discriminate. reflexivity.
Qed.

Lemma payloads_stop_at_no_dict dicts x rest :
  Forall (fun ev => is_dict ev = true) dicts ->
  is_dict x = false ->
  workflow_run_payloads (dicts ++ x :: rest)
  = Raise (AttributeError (type_name x) "get").
Proof.
  intros Hdicts Hx. induction Hdicts as [ | ev dicts Hev _ IH ].
  - cbn [app workflow_run_payloads]. now rewrite (get_no_dict x _ _ Hx).
  - cbn [app workflow_run_payloads]. rewrite IH.
    destruct ev as [ | | | | | m ]; try discriminate.
    cbn [Py.get bind Py.contains Py.item].
    destruct (Py.lookup "event_type" m) as [ event_type | ]; cbn [Py.eq];
      [ destruct (Py.eq event_type (JStr "workflow_run")) | ];
      cbn [andb]; try reflexivity.
    destruct (Py.lookup "payload" m); reflexivity.
Qed.

(** X14: an entry of the events file that is not an object (a number, a
    string, a list, null) fails both tools at the first such entry, with the
    [AttributeError] of its [.get]: [get_recent_actions_events] catches it
    and returns the error report, [get_workflow_status], whose [try] ends
    after the load, lets it out. *)
Theorem entry_that_is_no_object_fails_both_tools
    (text : string) (events : json) (dicts : list json) (x : json)
    (rest : list json) (limit : Z) (workflow_name : option string) :
  json_parse text = inr events ->
  Py.iter events = Ok (dicts ++ x :: rest) ->
  Forall (fun ev => is_dict ev = true) dicts ->
  is_dict x = false ->
  get_recent_actions_events (Some text) limit
  = read_failure ("'" ++ type_name x ++ "' object has no attribute 'get'")
  /\ get_workflow_status (Some text) workflow_name
     = Raise (AttributeError (type_name x) "get").
Proof.
  intros Htext Hiter Hdicts Hx. split.
  - unfold get_recent_actions_events, json_loads. rewrite Htext.
    cbn [bind]. rewrite Hiter. cbn [bind].
    now rewrite (timestamps_stop_at_no_dict dicts x rest Hdicts Hx).
  - unfold get_workflow_status, json_loads. rewrite Htext, Hiter.
    cbn [bind].
    now rewrite (payloads_stop_at_no_dict dicts x rest Hdicts Hx).
Qed.

(** *** Events without a timestamp *)

Lemma timestamps_of_sortable items :
  forallb sortable items = true ->
  mapM (fun x => Py.get x "timestamp" (JStr "")) items
  = Ok (map (fun x => JStr (stamp x)) items).
Proof.
  induction items as [ | x items IH ]; auto.
  cbn [forallb mapM]. intros [Hx Hitems]%andb_prop.
  rewrite (IH Hitems). unfold sortable in Hx. cbn [map].
  assert (Hstamp : Py.get x "timestamp" (JStr "") = Ok (JStr (stamp x))).
  { unfold stamp.
    destruct (Py.get x "timestamp" (JStr "")) as [ [ | | | | | ] | ];
      try discriminate.
    reflexivity. }
  rewrite Hstamp. reflexivity.
Qed.

Lemma sorted_reverse_stamps items :
  sorted_reverse (map (fun x => JStr (stamp x)) items) items
  = Ok (sort_desc stamp items).
Proof.
  unfold sorted_reverse.
  assert (Hkeys : str_keys (map (fun x => JStr (stamp x)) items)
                  = Some (map stamp items)).
  { induction items as [ | x items IH ]; auto.
    cbn [map str_keys]. now rewrite IH. }
  rewrite Hkeys. rewrite <- (map_id items) at 2. rewrite combine_map.
  rewrite (sort_desc_map fst (fun x => (stamp x, x))).
  now rewrite map_map, map_id.
Qed.

Lemma ltb_blank s : String.ltb s "" = false.
Proof. destruct s; reflexivity. Qed.

Lemma blank_ltb s : s <> EmptyString -> String.ltb "" s = true.
Proof. destruct s; [ congruence | reflexivity ]. Qed.

Lemma insert_desc_before_blank {A} (key : A -> string) x dated blank :
  Forall (fun y => key y = EmptyString) blank ->
  insert_desc key x (dated ++ blank) = insert_desc key x dated ++ blank.
Proof.
  intros Hblank. induction dated as [ | y dated IH ].
  - destruct Hblank as [ | y blank Hy _ ]; auto.
    cbn [app insert_desc]. now rewrite Hy, ltb_blank.
  - cbn [app insert_desc]. destruct (String.ltb (key x) (key y)); auto.
    now rewrite IH.
Qed.

Lemma insert_desc_blank {A} (key : A -> string) x dated blank :
  key x = EmptyString ->
  Forall (fun y => key y <> EmptyString) dated ->
  Forall (fun y => key y = EmptyString) blank ->
  insert_desc key x (dated ++ blank) = dated ++ x :: blank.
Proof.
  intros Hx Hdated Hblank. induction Hdated as [ | y dated Hy _ IH ].
  - destruct Hblank as [ | y blank Hy _ ]; auto.
    cbn [app insert_desc]. now rewrite Hx, Hy.
  - cbn [app insert_desc]. now rewrite Hx, (blank_ltb _ Hy), IH.
Qed.

(** Entries with an empty key end last, in the order they had. *)
Lemma sort_desc_blank_last {A} (key : A -> string) l :
  sort_desc key l
  = sort_desc key (filter (fun x => negb (String.eqb (key x) "")) l)
    ++ filter (fun x => String.eqb (key x) "") l.
Proof.
  induction l as [ | x l IH ]; auto.
  cbn [sort_desc fold_right filter]. fold (sort_desc key l). rewrite IH.
  assert (Hblank : Forall (fun y => key y = EmptyString)
                     (filter (fun x => String.eqb (key x) "") l)).
  { apply Forall_forall. intros y [_ Hy]%filter_In.
    now apply String.eqb_eq. }
  destruct (String.eqb_spec (key x) "") as [Hx | Hx]; cbn [negb].
  - apply insert_desc_blank; auto.
    apply Forall_forall. intros y Hy.
    apply (Permutation_in _ (sort_desc_perm key _)) in Hy.
    apply filter_In in Hy as [_ Hy]. intros Heq. rewrite Heq in Hy.
    discriminate.
  - cbn [sort_desc fold_right].
    fold (sort_desc key (filter (fun x => negb (String.eqb (key x) "")) l)).
    now apply insert_desc_before_blank.
Qed.

(** X15: an event that has no timestamp is sorted as if its timestamp were
    the empty string.  On a file whose entries are objects with a string
    timestamp or none, [get_recent_actions_events] lists the dated entries
    first, latest first, and after them the entries without a timestamp (or
    with an empty one) in the order of the file; the limit is applied to that
    sequence. *)
Theorem events_without_a_timestamp_come_last
    (text : string) (items : list json) (limit : Z) :
  json_parse text = inr (JArr items) ->
  forallb sortable items = true ->
  get_recent_actions_events (Some text) limit
  = json_dumps (Some 2%nat)
      (JArr (Py.slice_to limit
               (sort_desc stamp (filter (fun x => negb (undated x)) items)
                ++ filter undated items))).
Proof.
  intros Htext Hitems.
  unfold get_recent_actions_events, json_loads. rewrite Htext.
  cbn [bind Py.iter]. rewrite (timestamps_of_sortable items Hitems).
  cbn [bind]. rewrite sorted_reverse_stamps. cbn [bind].
  now rewrite (sort_desc_blank_last stamp items).
Qed.

End EventFacts.

(** * The claims on the reference runtime *)

#[local] Existing Instance reference.

Module Examples.

Definition push_body : string := Reference.quoted "{'ref':'main'}".

Definition push_request : request :=
  {| req_text := inr push_body;
     req_headers := [("X-GitHub-Event", "push")] |}.

(** [n] opening brackets before [rest], and [n] closing ones. *)
Fixpoint opened (n : nat) (rest : string) : string :=
  match n with
  | O => rest
  | S n' => String "["%char (opened n' rest)
  end.




(** A text of 2000 opening brackets: [json.loads] gives up on it before it
    gets to the end. *)
Definition unclosed : string := opened 2000 EmptyString.

Definition unclosed_request : request :=
  {| req_text := inr unclosed;
     req_headers := [("X-GitHub-Event", "push")] |}.

Definition not_json_request : request :=
  {| req_text := inr "not json"; req_headers := [] |}.

Definition push_event (now : string) : Event :=
  {| timestamp := now;
     event_type := "push";
     payload := JObj [("ref", JStr "main")] |}.

(** The arrival time of the [i]-th POST. *)
Definition arrival (i : nat) : string := "t" ++ Py.str_int (Z.of_nat i).

(** 101 pushes, one more than the log keeps. *)
Definition posts : list (string * request) :=
  map (fun i => (arrival i, push_request)) (seq 0 101).

Definition pushes : list Event := map (fun i => push_event (arrival i)) (seq 0 101).

Definition deploy_run (id : Z) (conclusion : string) : json :=
  JObj [("action", JStr "completed");
        ("workflow", JObj [("name", JStr "deploy")]);
        ("workflow_run",
         JObj [("id", JInt id); ("status", JStr "completed");
               ("conclusion", JStr conclusion);
               ("updated_at", JStr "2024-05-01T10:00:00Z")])].

(** The scenario of the specification: run 7 arrives before run 5. *)
Definition deploy_log : list Event :=
  [ workflow_run_event "2024-05-01T10:00:01" (deploy_run 7 "success");
    workflow_run_event "2024-05-01T10:00:02" (deploy_run 5 "failure") ].

(** A log with a push, a workflow_run event without a workflow name, and one
    with a name. *)
Definition mixed_log : list Event :=
  [ push_event "2024-05-01T09:00:00";
    workflow_run_event "2024-05-01T09:30:00"
      (JObj [("action", JStr "requested")]);
    workflow_run_event "2024-05-01T10:00:01" (deploy_run 7 "success") ].

(** Four events, timestamps increasing. *)
Definition four_events : list Event :=
  [ push_event "2024-05-01T09:00:00"; push_event "2024-05-01T09:00:01";
    push_event "2024-05-01T09:00:02"; push_event "2024-05-01T09:00:03" ].


(** A workflow_run event whose payload is an object with no nested name:
    [workflow] is a string. *)
Definition flat_workflow_log : list Event :=
  [ workflow_run_event "2024-05-01T10:00:00"
      (JObj [("workflow", JStr "deploy")]) ].

(** The file as the handler writes it. *)
Definition file_of (log : list Event) : string :=
  Reference.dumps (Some 2%nat) (log_json log).

(** *** A repository and a directory of templates *)

Definition same_command (a b : list string) : bool :=
  if list_eq_dec string_dec a b then true else false.

Definition ran (code : Z) (out err : string) : completed :=
  {| returncode := code; stdout := out; stderr := err |}.

(** A diff of four lines. *)
Definition four_lines : string :=
  join_lines ["--- a/notes.txt"; "+++ b/notes.txt"; "-old"; "+new"]%string.

(** A repository on branch [main] whose [git diff] prints [diff]; the three
    commands after the first exit with [later_code]. *)
Definition repo (diff : string) (later_code : Z) : shell :=
  fun args =>
    if same_command args (diff_command "main") then ran later_code diff ""
    else if same_command args (files_command "main")
    then ran 0 "M notes.txt" ""
    else if same_command args (stat_command "main")
    then ran later_code " notes.txt | 2 +-" ""
    else if same_command args (log_command "main")
    then ran later_code "abc1234 update the notes" ""
    else ran 128 "" "fatal: not a git repository".

(** A directory that is no repository: [git] exits with 128. *)
Definition no_repo : shell :=
  fun _ => ran 128 "" "fatal: not a git repository".

(** A machine without [git]. *)
Definition no_git : subprocess :=
  fun _ => Raise (OSError "[Errno 2] No such file or directory: 'git'").

(** A directory with every template, and one without [docs.md]. *)
Definition heading (filename : string) : string := ("# " ++ filename)%string.

Definition all_templates : templates_dir := fun filename => Some (heading filename).

Definition no_docs_template : templates_dir :=
  fun filename =>
    if String.eqb filename "docs.md" then None else Some (heading filename).

(** A file whose second entry is a number. *)
Definition number_entry : json := JArr [JObj []; JInt 5].

(** A file with two dated entries and two without a timestamp. *)
Definition partly_dated : list json :=
  [ JObj [("event_type", JStr "ping")];
    JObj [("timestamp", JStr "2024-05-01T09:00:00")];
    JObj [("event_type", JStr "push")];
    JObj [("timestamp", JStr "2024-05-01T10:00:00")] ].

End Examples.

Lemma ingested_events_witness :
  Forall2 (fun p e => received (R := reference) (fst p) (snd p) = Some e)
    Examples.posts Examples.pushes
  /\ load_existing_events (R := reference)
       (snd (deliver (R := reference) Examples.posts None))
     = Ok (log_json (skipn 1 Examples.pushes)).
Proof.
  assert (H : Forall2
                (fun p e => received (R := reference) (fst p) (snd p) = Some e)
                Examples.posts Examples.pushes)
    by (repeat constructor).
  split; [ exact H | ].
  exact (proj1 (@ingested_events_are_the_last_100 reference
                  Examples.posts Examples.pushes H)).
Defined.


Lemma recent_events_witness :
  json_parse (Examples.file_of Examples.four_events)
  = inr (log_json Examples.four_events)
  /\ (0 < 3)%Z
  /\ increasing timestamp Examples.four_events
  /\ get_recent_actions_events (R := reference)
       (Some (Examples.file_of Examples.four_events)) 3
     = json_dumps (Some 2%nat)
         (log_json [ Examples.push_event "2024-05-01T09:00:03";
                     Examples.push_event "2024-05-01T09:00:02";
                     Examples.push_event "2024-05-01T09:00:01" ]).
Proof.
  assert (Htext : json_parse (Examples.file_of Examples.four_events)
                  = inr (log_json Examples.four_events))
    by (vm_compute; reflexivity).
  assert (Hinc : increasing timestamp Examples.four_events)
    by (repeat constructor).
  split; [ exact Htext | ].
  split; [ reflexivity | ].
  split; [ exact Hinc | ].
  exact (proj1 (@recent_events_are_sorted_latest_first reference
                  (Examples.file_of Examples.four_events)
                  Examples.four_events 3 Htext eq_refl)).
Defined.

(** C4 as stated fails: with [limit = 0] a log of four events yields the
    empty array, not the four events. *)
Lemma limit_zero_counterexample :
  json_parse (Examples.file_of Examples.four_events)
  = inr (log_json Examples.four_events)
  /\ Examples.four_events <> []
  /\ (0 <= 0)%Z
  /\ get_recent_actions_events (R := reference)
       (Some (Examples.file_of Examples.four_events)) 0
     = json_dumps (Some 2%nat) (JArr [])
  /\ get_recent_actions_events (R := reference)
       (Some (Examples.file_of Examples.four_events)) 0
     <> json_dumps (Some 2%nat)
          (log_json (sort_desc timestamp Examples.four_events)).
Proof.
  split; [ vm_compute; reflexivity | ].
  split; [ discriminate | ].
  split; [ discriminate | ].
  split; [ vm_compute; reflexivity | vm_compute; discriminate ].
Qed.

Lemma limit_below_one_witness :
  json_parse (Examples.file_of Examples.four_events)
  = inr (log_json Examples.four_events)
  /\ (-1 <= 0)%Z
  /\ get_recent_actions_events (R := reference)
       (Some (Examples.file_of Examples.four_events)) (-1)
     = json_dumps (Some 2%nat)
         (log_json [ Examples.push_event "2024-05-01T09:00:03";
                     Examples.push_event "2024-05-01T09:00:02";
                     Examples.push_event "2024-05-01T09:00:01" ]).
Proof.
  assert (Htext : json_parse (Examples.file_of Examples.four_events)
                  = inr (log_json Examples.four_events))
    by (vm_compute; reflexivity).
  split; [ exact Htext | ].
  split; [ discriminate | ].
  exact (proj1 (@recent_events_with_a_limit_below_one reference
                  (Examples.file_of Examples.four_events)
                  Examples.four_events (-1) Htext ltac:(discriminate))).
Defined.



(** C6 as stated fails: a body of 2000 opening brackets is not JSON, and
    the answer to it carries the text of a [RecursionError] and no
    [body_received]. *)
Lemma unclosed_body_counterexample :
  json_parse Examples.unclosed
  = inl (RecursionError
           "maximum recursion depth exceeded while decoding a JSON array from a unicode string")
  /\ handle_webhook (R := reference) "2024-05-01T10:00:00"
       Examples.unclosed_request None
     = ({| status := 400;
           body := json_dumps None
                     (JObj [("error",
                             JStr "maximum recursion depth exceeded while decoding a JSON array from a unicode string")]) |},
        None)
  /\ (exists answer,
        body (fst (handle_webhook (R := reference) "2024-05-01T10:00:00"
                     Examples.unclosed_request None))
        = json_dumps None answer
        /\ wf answer = true
        /\ Py.contains answer "body_received" = false).
Proof.
  split; [ vm_compute; reflexivity | ].
  split; [ vm_compute; reflexivity | ].
  exists (JObj [("error",
                 JStr "maximum recursion depth exceeded while decoding a JSON array from a unicode string")]).
  split; [ vm_compute; reflexivity | split; reflexivity ].
Qed.

Lemma webhook_rejects_witness :
  req_text Examples.not_json_request = inr "not json"
  /\ json_parse "not json" = inl (JSONDecodeError "malformed JSON text")
  /\ handle_webhook (R := reference) "2024-05-01T10:00:00"
       Examples.not_json_request
       (Some (Examples.file_of Examples.deploy_log))
     = ({| status := 400;
           body := json_dumps None
                     (JObj [("error",
                             JStr "JSON Decode Error: malformed JSON text");
                            ("body_received", JStr "not json")]) |},
        Some (Examples.file_of Examples.deploy_log)).
Proof.
  assert (Hbody : json_parse "not json"
                  = inl (JSONDecodeError "malformed JSON text"))
    by (vm_compute; reflexivity).
  split; [ reflexivity | ].
  split; [ exact Hbody | ].
  exact (proj1 (@webhook_rejects_a_body_that_is_not_json reference
                  "2024-05-01T10:00:00" Examples.not_json_request
                  (Some (Examples.file_of Examples.deploy_log)))
           "not json" "malformed JSON text" eq_refl Hbody).
Defined.

Lemma missing_run_id_witness :
  json_parse (Examples.file_of missing_id_log) = inr (log_json missing_id_log)
  /\ get_workflow_status (R := reference)
       (Some (Examples.file_of missing_id_log)) None
     = Raise (TypeError
                "'>' not supported between instances of 'NoneType' and 'int'").
Proof.
  assert (Htext : json_parse (Examples.file_of missing_id_log)
                  = inr (log_json missing_id_log))
    by (vm_compute; reflexivity).
  split; [ exact Htext | ].
  exact (proj1 (@missing_run_id_raises reference
                  (Examples.file_of missing_id_log) Htext)).
Defined.

(** C8 as stated fails: on a file of 2000 opening brackets, which is not
    JSON, [json.load] raises [RecursionError], and [get_workflow_status]
    lets it out instead of returning the error object. *)
Lemma unclosed_file_counterexample :
  json_parse Examples.unclosed
  = inl (RecursionError
           "maximum recursion depth exceeded while decoding a JSON array from a unicode string")
  /\ get_workflow_status (R := reference) (Some Examples.unclosed) None
     = Raise (RecursionError
                "maximum recursion depth exceeded while decoding a JSON array from a unicode string")
  /\ get_recent_actions_events (R := reference) (Some Examples.unclosed) 10
     = json_dumps None
         (JObj [("error",
                 JStr "Failed to read or parse events file: maximum recursion depth exceeded while decoding a JSON array from a unicode string")]).
Proof. repeat split; vm_compute; reflexivity. Qed.

Lemma malformed_events_file_witness :
  json_parse "[{" = inl (JSONDecodeError "malformed JSON text")
  /\ get_recent_actions_events (R := reference) (Some "[{") 10
     = json_dumps None
         (JObj [("error",
                 JStr ("Failed to read or parse events file: "
                       ++ "malformed JSON text"))])
  /\ get_workflow_status (R := reference) (Some "[{") None
     = Ok (json_dumps None
             (JObj [("error",
                     JStr ("Failed to read or parse events file: "
                           ++ "malformed JSON text"))]))
  /\ snd (handle_webhook (R := reference) "2024-05-01T10:00:00"
            Examples.push_request (Some "[{"))
     = Some "[{".
Proof.
  assert (Htext : json_parse "[{" = inl (JSONDecodeError "malformed JSON text"))
    by (vm_compute; reflexivity).
  pose proof (@malformed_events_file_is_reported reference "[{"
                (JSONDecodeError "malformed JSON text") Htext)
    as (Hrecent & Hstatus & Hwebhook).
  split; [ exact Htext | ].
  split; [ exact (Hrecent 10%Z) | ].
  split; [ exact (Hstatus None) | ].
  exact (proj1 (Hwebhook "2024-05-01T10:00:00" Examples.push_request)).
Defined.


(** C9 as stated fails: the name "nonexistent" matches no run of a log
    whose workflow_run payload has a string for [workflow], and the answer is
    not the status text: the name test raises [AttributeError]. *)
Lemma unreadable_name_counterexample :
  json_parse (Examples.file_of Examples.flat_workflow_log)
  = inr (log_json Examples.flat_workflow_log)
  /\ get_workflow_status (R := reference)
       (Some (Examples.file_of Examples.flat_workflow_log))
       (Some "nonexistent")
     = Raise (AttributeError "str" "get").
Proof. split; vm_compute; reflexivity. Qed.

Lemma empty_results_witness :
  get_workflow_status (R := reference) None None
  = Ok (json_dumps None
          (JObj [("status",
                  JStr "No events file found. No workflows to report.")]))
  /\ get_workflow_status (R := reference)
       (Some (Examples.file_of Examples.four_events)) None
     = Ok (json_dumps None
             (JObj [("status", JStr "No workflow run events found.")]))
  /\ get_workflow_status (R := reference)
       (Some (Examples.file_of Examples.mixed_log)) (Some "nonexistent")
     = Ok (json_dumps None
             (JObj [("status",
                     JStr "No workflow runs found for 'nonexistent'.")])).
Proof.
  pose proof (@empty_results_are_reported reference)
    as (_ & Habsent & Hnone & Hname & _).
  split; [ exact (Habsent None) | ].
  split.
  - apply (Hnone _ Examples.four_events None).
    + vm_compute. reflexivity.
    + repeat constructor; discriminate.
  - apply (Hname _ Examples.mixed_log "nonexistent").
    + vm_compute. reflexivity.
    + discriminate.
    + discriminate.
    + repeat constructor; eexists; split; reflexivity.
Defined.

(** C10 as stated fails: a workflow_run payload in which [workflow] is a
    string has no nested workflow name, and it is not skipped: reading its
    name raises [AttributeError]. *)
Lemma flat_workflow_counterexample :
  json_parse (Examples.file_of Examples.flat_workflow_log)
  = inr (log_json Examples.flat_workflow_log)
  /\ get_workflow_status (R := reference)
       (Some (Examples.file_of Examples.flat_workflow_log)) None
     = Raise (AttributeError "str" "get").
Proof. split; vm_compute; reflexivity. Qed.

Lemma unnamed_workflow_runs_witness :
  json_parse (Examples.file_of Examples.mixed_log)
  = inr (log_json Examples.mixed_log)
  /\ workflow_runs Examples.mixed_log <> []
  /\ filter (fun run => negb (unnamed run)) (workflow_runs Examples.mixed_log)
     = [Examples.deploy_run 7 "success"]
  /\ get_workflow_status (R := reference)
       (Some (Examples.file_of Examples.mixed_log)) None
     = (latest_statuses <-
          record_runs []
            (filter (fun run => negb (unnamed run))
               (workflow_runs Examples.mixed_log)) ;;
        Ok (json_dumps (Some 2%nat) (dict_json latest_statuses)))
  /\ get_workflow_status (R := reference)
       (Some (Examples.file_of Examples.mixed_log)) None
     = Ok (json_dumps (Some 2%nat)
             (JObj [("deploy",
                     JObj [("id", JInt 7); ("status", JStr "completed");
                           ("conclusion", JStr "success");
                           ("timestamp", JStr "2024-05-01T10:00:00Z")])])).
Proof.
  assert (Htext : json_parse (Examples.file_of Examples.mixed_log)
                  = inr (log_json Examples.mixed_log))
    by (vm_compute; reflexivity).
  assert (Hne : workflow_runs Examples.mixed_log <> []) by discriminate.
  split; [ exact Htext | ].
  split; [ exact Hne | ].
  split; [ reflexivity | ].
  split.
  - exact (proj1 (@unnamed_workflow_runs_are_skipped reference
                    (Examples.file_of Examples.mixed_log) Examples.mixed_log
                    Htext Hne)).
  - vm_compute. reflexivity.
Defined.

Lemma webhook_on_an_object_witness :
  received "2024-05-01T10:00:00" Examples.push_request
  = Some (Examples.push_event "2024-05-01T10:00:00")
  /\ load_existing_events (Some "{}") = Ok (JObj [])
  /\ handle_webhook "2024-05-01T10:00:00" Examples.push_request (Some "{}")
     = ({| status := 400;
           body := json_dumps None
                     (JObj [("error",
                             JStr "'dict' object has no attribute 'append'")]) |},
        Some "{}").
Proof.
  assert (Hrecv : received "2024-05-01T10:00:00" Examples.push_request
                  = Some (Examples.push_event "2024-05-01T10:00:00"))
    by (vm_compute; reflexivity).
  assert (Hload : load_existing_events (Some "{}") = Ok (JObj []))
    by (vm_compute; reflexivity).
  split; [ exact Hrecv | ].
  split; [ exact Hload | ].
  exact (@webhook_on_a_file_that_holds_no_array reference
           "2024-05-01T10:00:00" Examples.push_request (Some "{}")
           (Examples.push_event "2024-05-01T10:00:00") (JObj []) Hrecv Hload
           ltac:(discriminate)).
Defined.

Lemma diff_within_the_limit_witness :
  returncode (Examples.repo Examples.four_lines 0 (files_command "main")) = 0%Z
  /\ (Z.of_nat
        (count_newlines
           (stdout (Examples.repo Examples.four_lines 0 (diff_command "main"))))
      < 500)%Z
  /\ analyze_file_changes (started (Examples.repo Examples.four_lines 0)) "main" true 500
     = json_dumps (Some 2%nat)
         (analysis (Examples.repo Examples.four_lines 0) "main"
            (stdout (Examples.repo Examples.four_lines 0 (diff_command "main")))
            false
            (Z.of_nat
               (count_newlines
                  (stdout
                     (Examples.repo Examples.four_lines 0 (diff_command "main"))))
             + 1)).
Proof.
  assert (Hok : returncode
                  (Examples.repo Examples.four_lines 0 (files_command "main"))
                = 0%Z) by reflexivity.
  assert (Hfit : (Z.of_nat
                    (count_newlines
                       (stdout
                          (Examples.repo Examples.four_lines 0
                             (diff_command "main"))))
                  < 500)%Z) by reflexivity.
  exact (conj Hok (conj Hfit
           (@diff_within_the_limit_is_returned_whole reference
              (Examples.repo Examples.four_lines 0) "main" 500 Hok Hfit))).
Defined.

Lemma diff_past_the_limit_witness :
  returncode (Examples.repo Examples.four_lines 0 (files_command "main")) = 0%Z
  /\ (1 <= 2
      < Z.of_nat
          (List.length
             (split_lines
                (stdout
                   (Examples.repo Examples.four_lines 0 (diff_command "main"))))))%Z
  /\ exists shown,
       analyze_file_changes (started (Examples.repo Examples.four_lines 0)) "main" true 2
       = json_dumps (Some 2%nat)
           (analysis (Examples.repo Examples.four_lines 0) "main" shown true
              (Z.of_nat
                 (List.length
                    (split_lines
                       (stdout
                          (Examples.repo Examples.four_lines 0
                             (diff_command "main")))))))
       /\ split_lines shown
          = firstn (Z.to_nat 2)
              (split_lines
                 (stdout
                    (Examples.repo Examples.four_lines 0 (diff_command "main"))))
            ++ EmptyString
            :: truncation_notice 2
                 (List.length
                    (split_lines
                       (stdout
                          (Examples.repo Examples.four_lines 0
                             (diff_command "main")))))
       /\ Z.of_nat (List.length (split_lines shown)) = (2 + 3)%Z.
Proof.
  assert (Hok : returncode
                  (Examples.repo Examples.four_lines 0 (files_command "main"))
                = 0%Z) by reflexivity.
  assert (Hcut : (1 <= 2
                  < Z.of_nat
                      (List.length
                         (split_lines
                            (stdout
                               (Examples.repo Examples.four_lines 0
                                  (diff_command "main"))))))%Z)
    by (vm_compute; split; [ discriminate | reflexivity ]).
  exact (conj Hok (conj Hcut
           (@diff_past_the_limit_is_cut reference
              (Examples.repo Examples.four_lines 0) "main" 2 Hok Hcut))).
Defined.

Lemma diff_limit_of_zero_witness :
  returncode (Examples.repo "" 0 (files_command "main")) = 0%Z
  /\ (0 <= 0)%Z
  /\ exists shown,
       analyze_file_changes (started (Examples.repo "" 0)) "main" true 0
       = json_dumps (Some 2%nat)
           (analysis (Examples.repo "" 0) "main" shown true
              (Z.of_nat
                 (List.length
                    (split_lines
                       (stdout (Examples.repo "" 0 (diff_command "main")))))))
       /\ (1 <= List.length
                  (split_lines
                     (stdout (Examples.repo "" 0 (diff_command "main")))))%nat
       /\ split_lines shown
          = [EmptyString] ++ EmptyString
            :: truncation_notice 0
                 (List.length
                    (split_lines
                       (stdout (Examples.repo "" 0 (diff_command "main"))))).
Proof.
  assert (Hok : returncode (Examples.repo "" 0 (files_command "main")) = 0%Z)
    by reflexivity.
  assert (Hmax : (0 <= 0)%Z) by lia.
  exact (conj Hok (conj Hmax
           (@diff_limit_below_one_always_cuts reference
              (Examples.repo "" 0) "main" 0 Hok Hmax))).
Defined.

Lemma analysis_without_the_diff_witness :
  (forall args,
     args <> diff_command "main" ->
     started (Examples.repo "another diff" 0) args
     = started (Examples.repo Examples.four_lines 0) args)
  /\ analyze_file_changes (started (Examples.repo "another diff" 0)) "main"
       false 1
     = analyze_file_changes (started (Examples.repo Examples.four_lines 0))
         "main" false 500.
Proof.
  assert (Hsame : forall args,
             args <> diff_command "main" ->
             started (Examples.repo "another diff" 0) args
             = started (Examples.repo Examples.four_lines 0) args).
  { intros args Hargs. unfold started, Examples.repo, Examples.same_command.
    destruct (list_eq_dec string_dec args (diff_command "main"));
      [ contradiction | reflexivity ]. }
  exact (conj Hsame
           (@analysis_without_the_diff reference
              (started (Examples.repo Examples.four_lines 0))
              (started (Examples.repo "another diff" 0)) "main" 500 1 Hsame)).
Defined.

Lemma git_error_witness :
  started Examples.no_repo (files_command "main")
  = Ok (Examples.ran 128 "" "fatal: not a git repository")
  /\ analyze_file_changes (started Examples.no_repo) "main" true 500
     = error_report "Git error: fatal: not a git repository"
  /\ Examples.no_git (files_command "main")
     = Raise (OSError "[Errno 2] No such file or directory: 'git'")
  /\ analyze_file_changes Examples.no_git "main" true 500
     = error_report "[Errno 2] No such file or directory: 'git'".
Proof.
  split; [ reflexivity | ].
  split.
  - exact (proj1 (proj2 (@git_error_is_reported_for_the_first_command
                           reference (started Examples.no_repo) "main" true
                           500))
             (Examples.ran 128 "" "fatal: not a git repository") eq_refl
             ltac:(discriminate)).
  - split; [ reflexivity | ].
    exact (proj1 (proj2 (proj2 (@git_error_is_reported_for_the_first_command
                                  reference Examples.no_git "main" true 500)))
             (OSError "[Errno 2] No such file or directory: 'git'") eq_refl).
Defined.

Lemma later_git_failures_witness :
  returncode (Examples.repo Examples.four_lines 0 (files_command "main")) = 0%Z
  /\ returncode (Examples.repo Examples.four_lines 1 (files_command "main"))
     = 0%Z
  /\ (forall args,
        stdout (Examples.repo Examples.four_lines 1 args)
        = stdout (Examples.repo Examples.four_lines 0 args))
  /\ returncode (Examples.repo Examples.four_lines 1 (log_command "main"))
     = 1%Z
  /\ analyze_file_changes (started (Examples.repo Examples.four_lines 1)) "main" true 500
     = analyze_file_changes (started (Examples.repo Examples.four_lines 0)) "main" true
         500.
Proof.
  assert (Hok : returncode
                  (Examples.repo Examples.four_lines 0 (files_command "main"))
                = 0%Z) by reflexivity.
  assert (Hok' : returncode
                   (Examples.repo Examples.four_lines 1 (files_command "main"))
                 = 0%Z) by reflexivity.
  assert (Hout : forall args,
             stdout (Examples.repo Examples.four_lines 1 args)
             = stdout (Examples.repo Examples.four_lines 0 args)).
  { intros args. unfold Examples.repo.
    repeat match goal with
           | |- context [Examples.same_command ?a ?b] =>
               destruct (Examples.same_command a b)
           end; reflexivity. }
  exact (conj Hok (conj Hok' (conj Hout (conj eq_refl
           (@later_git_failures_are_not_reported reference
              (Examples.repo Examples.four_lines 0)
              (Examples.repo Examples.four_lines 1) "main" true 500
              Hok Hok' Hout))))).
Defined.

Lemma pr_templates_witness :
  (forall filename,
     In filename (map fst DEFAULT_TEMPLATES) ->
     Examples.all_templates filename = Some (Examples.heading filename))
  /\ get_pr_templates Examples.all_templates
     = Returned
         (json_dumps (Some 2%nat)
            (JArr (templates_of Examples.heading DEFAULT_TEMPLATES)))
  /\ json_loads
       (json_dumps (Some 2%nat)
          (JArr (templates_of Examples.heading DEFAULT_TEMPLATES)))
     = Ok (JArr (templates_of Examples.heading DEFAULT_TEMPLATES))
  /\ List.length (templates_of Examples.heading DEFAULT_TEMPLATES) = 7%nat.
Proof.
  assert (Hdir : forall filename,
             In filename (map fst DEFAULT_TEMPLATES) ->
             Examples.all_templates filename
             = Some (Examples.heading filename))
    by reflexivity.
  exact (conj Hdir
           (@pr_templates_list_the_default_files reference
              Examples.all_templates Examples.heading Hdir)).
Defined.

Lemma suggested_template_witness :
  (forall filename,
     In filename (map fst DEFAULT_TEMPLATES) ->
     Examples.all_templates filename = Some (Examples.heading filename))
  /\ table_get TYPE_MAPPING (str_lower "Fix") "feature.md" = "bug.md"
  /\ table_get TYPE_MAPPING (str_lower "chore") "feature.md" = "feature.md"
  /\ suggest_template Examples.all_templates "repairs the parser" "chore"
     = Returned
         (json_dumps (Some 2%nat)
            (JObj [("recommended_template",
                    template "feature.md" "Feature" "# feature.md");
                   ("reasoning",
                    JStr "Based on your analysis: 'repairs the parser', this appears to be a chore change.");
                   ("template_content", JStr "# feature.md");
                   ("usage_hint",
                    JStr "AI Agent can help you fill out this template based on the specific changes in your PR.")])).
Proof.
  assert (Hdir : forall filename,
             In filename (map fst DEFAULT_TEMPLATES) ->
             Examples.all_templates filename
             = Some (Examples.heading filename))
    by reflexivity.
  exact (conj Hdir (conj eq_refl (conj eq_refl
           (proj2 (@suggested_template_follows_the_mapping reference
                     Examples.all_templates Examples.heading
                     "repairs the parser" "chore" Hdir))))).
Defined.

Lemma missing_template_file_witness :
  DEFAULT_TEMPLATES
  = [("bug.md", "Bug Fix"); ("feature.md", "Feature")]
    ++ ("docs.md", "Documentation")
    :: [("refactor.md", "Refactor"); ("test.md", "Test");
        ("performance.md", "Performance"); ("security.md", "Security")]
  /\ (forall present,
        In present (map fst [("bug.md", "Bug Fix"); ("feature.md", "Feature")]) ->
        Examples.no_docs_template present <> None)
  /\ Examples.no_docs_template "docs.md" = None
  /\ get_pr_templates Examples.no_docs_template = FileNotFoundError "docs.md"
  /\ suggest_template Examples.no_docs_template "repairs the parser" "bug"
     = FileNotFoundError "docs.md".
Proof.
  assert (Htable : DEFAULT_TEMPLATES
                   = [("bug.md", "Bug Fix"); ("feature.md", "Feature")]
                     ++ ("docs.md", "Documentation")
                     :: [("refactor.md", "Refactor"); ("test.md", "Test");
                         ("performance.md", "Performance");
                         ("security.md", "Security")]) by reflexivity.
  assert (Hbefore : forall present,
             In present
                (map fst [("bug.md", "Bug Fix"); ("feature.md", "Feature")]) ->
             Examples.no_docs_template present <> None).
  { intros present [<- | [<- | []]]; discriminate. }
  assert (Hmissing : Examples.no_docs_template "docs.md" = None)
    by reflexivity.
  exact (conj Htable (conj Hbefore (conj Hmissing
           (@missing_template_file_stops_both_tools reference
              Examples.no_docs_template _ "docs.md" "Documentation" _
              "repairs the parser" "bug" Htable Hbefore Hmissing)))).
Defined.

Lemma posted_event_witness :
  load_existing_events (Some (Examples.file_of Examples.four_events))
  = Ok (log_json Examples.four_events)
  /\ received "2024-05-01T10:00:00" Examples.push_request
     = Some (Examples.push_event "2024-05-01T10:00:00")
  /\ Forall (fun old => String.ltb (timestamp old) "2024-05-01T10:00:00" = true)
       Examples.four_events
  /\ (1 <= 2)%Z
  /\ get_recent_actions_events
       (snd (handle_webhook "2024-05-01T10:00:00" Examples.push_request
               (Some (Examples.file_of Examples.four_events)))) 2
     = json_dumps (Some 2%nat)
         (log_json
            (Examples.push_event "2024-05-01T10:00:00"
             :: firstn (Z.to_nat 2 - 1)
                  (sort_desc timestamp
                     (Py.slice_last 99 Examples.four_events)))).
Proof.
  assert (Hload : load_existing_events
                    (Some (Examples.file_of Examples.four_events))
                  = Ok (log_json Examples.four_events))
    by (vm_compute; reflexivity).
  assert (Hrecv : received "2024-05-01T10:00:00" Examples.push_request
                  = Some (Examples.push_event "2024-05-01T10:00:00"))
    by (vm_compute; reflexivity).
  assert (Hlater : Forall
                     (fun old =>
                        String.ltb (timestamp old) "2024-05-01T10:00:00" = true)
                     Examples.four_events)
    by (repeat constructor).
  assert (Hlimit : (1 <= 2)%Z) by lia.
  exact (conj Hload (conj Hrecv (conj Hlater (conj Hlimit
           (@posted_event_is_the_most_recent reference
              "2024-05-01T10:00:00" Examples.push_request
              (Some (Examples.file_of Examples.four_events))
              Examples.four_events
              (Examples.push_event "2024-05-01T10:00:00") 2
              Hload Hrecv Hlater Hlimit))))).
Defined.

Lemma other_events_witness :
  json_parse (Examples.file_of Examples.deploy_log)
  = inr (log_json Examples.deploy_log)
  /\ received "2024-05-01T11:00:00" Examples.push_request
     = Some (Examples.push_event "2024-05-01T11:00:00")
  /\ event_type (Examples.push_event "2024-05-01T11:00:00") <> "workflow_run"
  /\ (List.length Examples.deploy_log < 100)%nat
  /\ get_workflow_status
       (snd (handle_webhook "2024-05-01T11:00:00" Examples.push_request
               (Some (Examples.file_of Examples.deploy_log))))
       (Some "deploy")
     = get_workflow_status (Some (Examples.file_of Examples.deploy_log))
         (Some "deploy").
Proof.
  assert (Htext : json_parse (Examples.file_of Examples.deploy_log)
                  = inr (log_json Examples.deploy_log))
    by (vm_compute; reflexivity).
  assert (Hrecv : received "2024-05-01T11:00:00" Examples.push_request
                  = Some (Examples.push_event "2024-05-01T11:00:00"))
    by (vm_compute; reflexivity).
  assert (Htype : event_type (Examples.push_event "2024-05-01T11:00:00")
                  <> "workflow_run") by discriminate.
  assert (Hlen : (List.length Examples.deploy_log < 100)%nat)
    by (cbn; lia).
  exact (conj Htext (conj Hrecv (conj Htype (conj Hlen
           (@other_events_leave_the_workflow_status reference
              "2024-05-01T11:00:00" Examples.push_request
              (Examples.file_of Examples.deploy_log) Examples.deploy_log
              (Examples.push_event "2024-05-01T11:00:00") (Some "deploy")
              Htext Hrecv Htype Hlen))))).
Defined.

Lemma entry_that_is_no_object_witness :
  json_parse "[{}, 5]" = inr Examples.number_entry
  /\ Py.iter Examples.number_entry = Ok ([JObj []] ++ JInt 5 :: [])
  /\ Forall (fun ev => is_dict ev = true) [JObj []]
  /\ is_dict (JInt 5) = false
  /\ get_recent_actions_events (Some "[{}, 5]") 10
     = read_failure "'int' object has no attribute 'get'"
  /\ get_workflow_status (Some "[{}, 5]") None
     = Raise (AttributeError "int" "get").
Proof.
  assert (Htext : json_parse "[{}, 5]" = inr Examples.number_entry)
    by (vm_compute; reflexivity).
  assert (Hiter : Py.iter Examples.number_entry
                  = Ok ([JObj []] ++ JInt 5 :: [])) by reflexivity.
  assert (Hdicts : Forall (fun ev => is_dict ev = true) [JObj []])
    by (repeat constructor).
  assert (Hx : is_dict (JInt 5) = false) by reflexivity.
  exact (conj Htext (conj Hiter (conj Hdicts (conj Hx
           (@entry_that_is_no_object_fails_both_tools reference
              "[{}, 5]" Examples.number_entry [JObj []] (JInt 5) [] 10 None
              Htext Hiter Hdicts Hx))))).
Defined.

Lemma events_without_a_timestamp_witness :
  json_parse (json_dumps (Some 2%nat) (JArr Examples.partly_dated))
  = inr (JArr Examples.partly_dated)
  /\ forallb sortable Examples.partly_dated = true
  /\ sort_desc stamp (filter (fun x => negb (undated x)) Examples.partly_dated)
     ++ filter undated Examples.partly_dated
     = [ JObj [("timestamp", JStr "2024-05-01T10:00:00")];
         JObj [("timestamp", JStr "2024-05-01T09:00:00")];
         JObj [("event_type", JStr "ping")];
         JObj [("event_type", JStr "push")] ]
  /\ get_recent_actions_events
       (Some (json_dumps (Some 2%nat) (JArr Examples.partly_dated))) 10
     = json_dumps (Some 2%nat)
         (JArr (Py.slice_to 10
                  (sort_desc stamp
                     (filter (fun x => negb (undated x)) Examples.partly_dated)
                   ++ filter undated Examples.partly_dated))).
Proof.
  assert (Htext : json_parse
                    (json_dumps (Some 2%nat) (JArr Examples.partly_dated))
                  = inr (JArr Examples.partly_dated))
    by (vm_compute; reflexivity).
  assert (Hitems : forallb sortable Examples.partly_dated = true)
    by reflexivity.
  exact (conj Htext (conj Hitems (conj eq_refl
           (@events_without_a_timestamp_come_last reference
              (json_dumps (Some 2%nat) (JArr Examples.partly_dated))
              Examples.partly_dated 10 Htext Hitems)))).
Defined.
